(** * ts-async-either: Either, Left, Right and AsyncEither

    A shallow embedding of the library's four components and the
    properties its specification states about them:
    - [Left] and [Right] (src/either/left.ts, src/either/right.ts; the tap
      family and [toResult] of [Right] are in the fuller copy of the class,
      src/unnamed/part_002),
    - [EitherUnwrapError] (src/errors/either-unwrap.error.ts),
    - [AsyncEither] (src/async-either/async-either.ts). *)

From Stdlib Require Import String ZArith List Bool Arith Lia.
Import ListNotations.
Local Open Scope string_scope.

(** ** JavaScript values

    An [Either] instance is an object with one field, [protected readonly]
    and assigned in the constructor; no method of the library writes to
    it.  A reference to an instance is represented by the identity [oid] of
    the object together with the payload found there: the two cannot drift
    apart.  Identity is what [toBe] observes; value equality ([toEqual])
    ignores it.

    A promise is represented by its eventual settlement: [Pending] stands
    for a promise that never settles.  Functions are not [Value]s;
    callbacks are Rocq functions into the effect monad. *)

Inductive ErrorClass : Type :=
| Class_Error
| Class_TypeError
| Class_EitherUnwrapError.

Record JsError : Type := mkError {
  err_class : ErrorClass;
  message : string;
  code : option string
}.

Inductive Value : Type :=
| VUndefined
| VNull
| VBool (b : bool)
| VNum (n : Z)
| VStr (s : string)
| VError (err : JsError)
| VEither (e : Either)
| VPromise (p : Promise)
| VAsyncEither (handle : Promise)
with Either : Type :=
| Left (oid : nat) (error : Value)
| Right (oid : nat) (value : Value)
with Promise : Type :=
| Fulfilled (v : Value)
| Rejected (reason : Value)
| Pending.

Scheme Value_mut := Induction for Value Sort Prop
  with Either_mut := Induction for Either Sort Prop
  with Promise_mut := Induction for Promise Sort Prop.
Combined Scheme Value_Either_Promise_ind from Value_mut, Either_mut, Promise_mut.

Definition oid_of (e : Either) : nat :=
  match e with
  | Left oid _ => oid
  | Right oid _ => oid
  end.

(** [x instanceof Either] *)
Definition instanceof_Either (x : Value) : bool :=
  match x with
  | VEither _ => true
  | _ => false
  end.

(** [x instanceof AsyncEither] *)
Definition instanceof_AsyncEither (x : Value) : bool :=
  match x with
  | VAsyncEither _ => true
  | _ => false
  end.

(** A thenable is a value with a [then] method: a promise, or an
    [AsyncEither], whose [then] delegates to its handle. *)
Definition thenable (x : Value) : bool :=
  match x with
  | VPromise _ | VAsyncEither _ => true
  | _ => false
  end.

(** JavaScript truthiness, as used by [?:] and [if]. *)
Definition truthy (x : Value) : bool :=
  match x with
  | VUndefined | VNull => false
  | VBool b => b
  | VNum n => negb (Z.eqb n 0)
  | VStr s => negb (String.eqb s "")
  | _ => true
  end.

(** ** The world: the object store and the console

    The store lists the [Either] instances created so far, in creation
    order: an instance's identity is its position.  Nothing in the library
    writes to an existing instance, so the store only grows at its end. *)

Inductive ConsoleMethod : Type := console_log_m | console_error_m.

Record ConsoleCall : Type := mkCall {
  method : ConsoleMethod;
  args : list Value
}.

Record World : Type := mkWorld {
  heap : list Either;
  console : list ConsoleCall
}.

(** The identity the next instance will get. *)
Definition next_oid (w : World) : nat := length (heap w).

Definition alloc (x : Either) (w : World) : World :=
  {| heap := heap w ++ [x]; console := console w |}.

Definition print (c : ConsoleCall) (w : World) : World :=
  {| heap := heap w; console := console w ++ [c] |}.

(** ** Synchronous code: state and exceptions

    A thrown exception keeps the effects that happened before it. *)

Inductive Completion (A : Type) : Type :=
| Normal (a : A)
| Throw (exn : Value).
Arguments Normal {A} a.
Arguments Throw {A} exn.

Definition Js (A : Type) : Type := World -> Completion A * World.

Definition ret {A} (a : A) : Js A := fun w => (Normal a, w).

Definition bind {A B} (m : Js A) (k : A -> Js B) : Js B :=
  fun w =>
    match m w with
    | (Normal a, w') => k a w'
    | (Throw e, w') => (Throw e, w')
    end.

Definition throw {A} (exn : Value) : Js A := fun w => (Throw exn, w).

Definition try_catch {A} (body : Js A) (handler : Value -> Js A) : Js A :=
  fun w =>
    match body w with
    | (Normal a, w') => (Normal a, w')
    | (Throw e, w') => handler e w'
    end.

Definition lift {A} (c : Completion A) : Js A := fun w => (c, w).

Declare Scope js_scope.
Delimit Scope js_scope with js.
Notation "x <- m ;; k" := (bind m (fun x => k))
  (at level 61, m at next level, right associativity) : js_scope.
Notation "m ;;; k" := (bind m (fun _ => k))
  (at level 61, right associativity) : js_scope.
Local Open Scope js_scope.

Definition console_log (xs : list Value) : Js unit :=
  fun w => (Normal tt, print (mkCall console_log_m xs) w).

Definition console_error (xs : list Value) : Js unit :=
  fun w => (Normal tt, print (mkCall console_error_m xs) w).

(** ** [EitherUnwrapError] (src/errors/either-unwrap.error.ts) *)

Definition DEFAULT_CODE : string := "EITHER_UNWRAP_ERROR".
Definition DEFAULT_MESSAGE : string := "Either unwrap error".

Definition new_EitherUnwrapError (msg : option string) (cd : option string) : Value :=
  VError {| err_class := Class_EitherUnwrapError;
            message := match msg with Some m => m | None => DEFAULT_MESSAGE end;
            code := Some (match cd with Some c => c | None => DEFAULT_CODE end) |}.

(** ** [Left] and [Right] (src/either/left.ts, src/either/right.ts)

    Each abstract method of [Either] is one definition; the [Left] branch
    is the body of the method in class [Left], the [Right] branch the body
    in class [Right]. *)

Definition new_Left (error : Value) : Js Either :=
  fun w => let this := Left (next_oid w) error in (Normal this, alloc this w).

Definition new_Right (value : Value) : Js Either :=
  fun w => let this := Right (next_oid w) value in (Normal this, alloc this w).

Definition left (error : Value) : Js Either := new_Left error.
Definition right (value : Value) : Js Either := new_Right value.

Definition Either_map (this : Either) (mapper : Value -> Js Value) : Js Either :=
  match this with
  | Left _ error => new_Left error
  | Right _ value => v <- mapper value ;; new_Right v
  end.

Definition Either_mapError (this : Either) (fn : Value -> Js Value) : Js Either :=
  match this with
  | Left _ error => e <- fn error ;; new_Left e
  | Right _ value => new_Right value
  end.

Definition Either_filter (this : Either)
    (predicate errorFactory : Value -> Js Value) : Js Either :=
  match this with
  | Left _ error => new_Left error
  | Right _ value =>
      keep <- predicate value ;;
      if truthy keep then new_Right value
      else (e <- errorFactory value ;; new_Left e)
  end.

Definition Either_flatMap (this : Either) (mapper : Value -> Js Either) : Js Either :=
  match this with
  | Left _ error => new_Left error
  | Right _ value => mapper value
  end.

Definition Either_getOrElse (this : Either) (defaultValue : Value) : Value :=
  match this with
  | Left _ _ => defaultValue
  | Right _ value => value
  end.

Definition Either_getErrorOrElse (this : Either) (defaultError : Value) : Value :=
  match this with
  | Left _ error => error
  | Right _ _ => defaultError
  end.

Definition Either_isRight (this : Either) : bool :=
  match this with
  | Left _ _ => false
  | Right _ _ => true
  end.

Definition Either_isLeft (this : Either) : bool :=
  match this with
  | Left _ _ => true
  | Right _ _ => false
  end.

Definition Either_unwrap (this : Either) : Completion Value :=
  match this with
  | Left _ _ => Throw (new_EitherUnwrapError (Some "Cannot unwrap Left instance") None)
  | Right _ value => Normal value
  end.

Definition Either_unwrapError (this : Either) : Completion Value :=
  match this with
  | Left _ error => Normal error
  | Right _ _ =>
      Throw (new_EitherUnwrapError (Some "Cannot unwrapError Right instance") None)
  end.

Definition Either_tap (this : Either) (fn : Value -> Js Value) : Js Either :=
  match this with
  | Left _ _ => ret this
  | Right _ value =>
      try_catch (fn value ;;; ret tt)
        (fun error =>
           console_log [VStr "[Either/Right] Error on tap"] ;;;
           console_error [error]) ;;;
      ret this
  end.

Definition Either_tapError (this : Either) (fn : Value -> Js Value) : Js Either :=
  match this with
  | Left _ error =>
      try_catch (fn error ;;; ret tt)
        (fun error =>
           console_log [VStr "[Either/Left] Error on tapError"] ;;;
           console_error [error]) ;;;
      ret this
  | Right _ _ => ret this
  end.

(** A [null] callback is [None]. *)
Definition Either_tapBoth (this : Either)
    (rightFn leftFn : option (Value -> Js Value)) : Js Either :=
  match this with
  | Left _ _ =>
      match leftFn with
      | Some f => Either_tapError this f
      | None => ret this
      end
  | Right _ _ =>
      match rightFn with
      | Some f => Either_tap this f
      | None => ret this
      end
  end.

(** ** Promises

    [resolve x] is the promise resolution procedure ([Promise.resolve(x)],
    and what a promise does with the value its job returns): a promise or
    another thenable (an [AsyncEither] has a [then] method that delegates
    to its handle) is adopted, anything else fulfils the promise.

    Reactions are run in the order in which they are registered; how the
    host interleaves the jobs of unrelated chains is not modelled. *)

Fixpoint resolve (x : Value) : Promise :=
  match x with
  | VPromise p => adopt p
  | VAsyncEither handle => adopt handle
  | _ => Fulfilled x
  end
with adopt (p : Promise) : Promise :=
  match p with
  | Fulfilled v => resolve v
  | Rejected reason => Rejected reason
  | Pending => Pending
  end.

(** The promise produced by running a reaction job: the job's result is
    resolved, an exception it throws rejects the promise. *)
Definition settle (job : Js Value) : Js Promise :=
  fun w =>
    match job w with
    | (Normal v, w') => (Normal (resolve v), w')
    | (Throw e, w') => (Normal (Rejected e), w')
    end.

(** [p.then(onfulfilled, onrejected)]; an absent or [null] reaction is
    [None].  Reactions run once the promise has settled; on a promise that
    never settles they never run. *)
Definition Promise_then (p : Promise)
    (onfulfilled onrejected : option (Value -> Js Value)) : Js Promise :=
  match p with
  | Fulfilled v =>
      match onfulfilled with
      | Some reaction => settle (reaction v)
      | None => ret (Fulfilled v)
      end
  | Rejected reason =>
      match onrejected with
      | Some reaction => settle (reaction reason)
      | None => ret (Rejected reason)
      end
  | Pending => ret Pending
  end.

(** [p.catch(onrejected)] *)
Definition Promise_catch (p : Promise)
    (onrejected : option (Value -> Js Value)) : Js Promise :=
  Promise_then p None onrejected.

(** ** Bodies of [async] functions

    Besides returning and throwing, the body of an [async] function can
    stay suspended for ever at an [await] of a promise that never
    settles. *)

Inductive AsyncCompletion (A : Type) : Type :=
| Returned (a : A)
| Raised (exn : Value)
| Suspended.
Arguments Returned {A} a.
Arguments Raised {A} exn.
Arguments Suspended {A}.

Definition Async (A : Type) : Type := World -> AsyncCompletion A * World.

Definition aret {A} (a : A) : Async A := fun w => (Returned a, w).

Definition abind {A B} (m : Async A) (k : A -> Async B) : Async B :=
  fun w =>
    match m w with
    | (Returned a, w') => k a w'
    | (Raised e, w') => (Raised e, w')
    | (Suspended, w') => (Suspended, w')
    end.

(** A synchronous call made from an [async] body. *)
Definition call {A} (m : Js A) : Async A :=
  fun w =>
    match m w with
    | (Normal a, w') => (Returned a, w')
    | (Throw e, w') => (Raised e, w')
    end.

(** [await x] *)
Definition await (x : Value) : Async Value :=
  fun w =>
    match resolve x with
    | Fulfilled v => (Returned v, w)
    | Rejected reason => (Raised reason, w)
    | Pending => (Suspended, w)
    end.

Definition atry_catch {A} (body : Async A) (handler : Value -> Async A) : Async A :=
  fun w =>
    match body w with
    | (Raised e, w') => handler e w'
    | other => other
    end.

Declare Scope async_scope.
Delimit Scope async_scope with async.
Notation "x <- m ;; k" := (abind m (fun x => k))
  (at level 61, m at next level, right associativity) : async_scope.
Notation "m ;;; k" := (abind m (fun _ => k))
  (at level 61, right associativity) : async_scope.

(** The promise an [async] function returns when called. *)
Definition async_promise (body : Async Value) : Js Promise :=
  fun w =>
    match body w with
    | (Returned v, w') => (Normal (resolve v), w')
    | (Raised e, w') => (Normal (Rejected e), w')
    | (Suspended, w') => (Normal Pending, w')
    end.

Definition async (body : Async Value) : Js Value :=
  p <- async_promise body ;; ret (VPromise p).

(** The receiver of a method call [x.isLeft()], [x.unwrap()], ...: on a
    value that is not an [Either] instance the call fails with a
    [TypeError] (the engine's message text is not modelled).  The handle of
    an [AsyncEither] never holds such a value, see [new_AsyncEither_wraps]. *)
Definition receiver (x : Value) : Completion Either :=
  match x with
  | VEither e => Normal e
  | _ => Throw (VError (mkError Class_TypeError "not a function" None))
  end.

(** ** [AsyncEither] (src/async-either/async-either.ts) *)

Record AsyncEither : Type := mkAsyncEither { promise : Promise }.

Definition new_AsyncEither (promiseOrEither : Value) : Js AsyncEither :=
  p1 <- Promise_then (resolve promiseOrEither)
          (Some (fun result =>
                   if instanceof_Either result then ret result
                   else (r <- right result ;; ret (VEither r))))
          None ;;
  p2 <- Promise_catch p1
          (Some (fun error => l <- left error ;; ret (VEither l))) ;;
  ret {| promise := p2 |}.

Definition AsyncEither_tryCatch (p : Value) : Js AsyncEither :=
  new_AsyncEither p.

Definition AsyncEither_fromPromise (p : Value) : Js AsyncEither :=
  AsyncEither_tryCatch p.

Definition AsyncEither_fromEither (either : Either) : Js AsyncEither :=
  new_AsyncEither (VEither either).

Definition AsyncEither_then (this : AsyncEither)
    (onfulfilled onrejected : option (Value -> Js Value)) : Js Promise :=
  Promise_then (promise this) onfulfilled onrejected.

Definition AsyncEither_catch (this : AsyncEither)
    (onrejected : option (Value -> Js Value)) : Js Promise :=
  Promise_catch (promise this) onrejected.

Definition AsyncEither_chain (this : AsyncEither)
    (transform : Value -> Js Value) : Js AsyncEither :=
  newPromiseResolvingToEither <- Promise_then (promise this) (Some transform) None ;;
  new_AsyncEither (VPromise newPromiseResolvingToEither).

Definition AsyncEither_map (this : AsyncEither) (fn : Value -> Js Value)
  : Js AsyncEither :=
  AsyncEither_chain this (fun x => async (
    either <- call (lift (receiver x)) ;;
    if Either_isLeft either then
      error <- call (lift (Either_unwrapError either)) ;;
      l <- call (left error) ;;
      aret (VEither l)
    else
      value <- call (lift (Either_unwrap either)) ;;
      pending <- call (fn value) ;;
      mappedValue <- await pending ;;
      r <- call (right mappedValue) ;;
      aret (VEither r))%async).

Definition AsyncEither_flatMap (this : AsyncEither) (fn : Value -> Js Value)
  : Js AsyncEither :=
  AsyncEither_chain this (fun x => async (
    either <- call (lift (receiver x)) ;;
    if Either_isLeft either then
      error <- call (lift (Either_unwrapError either)) ;;
      l <- call (left error) ;;
      aret (VEither l)
    else
      value <- call (lift (Either_unwrap either)) ;;
      pending <- call (fn value) ;;
      result <- await pending ;;
      match result with
      | VAsyncEither handle => aret (VPromise handle)
      | _ => aret result
      end)%async).

Definition AsyncEither_mapError (this : AsyncEither) (fn : Value -> Js Value)
  : Js AsyncEither :=
  AsyncEither_chain this (fun x => async (
    either <- call (lift (receiver x)) ;;
    if Either_isRight either then
      value <- call (lift (Either_unwrap either)) ;;
      r <- call (right value) ;;
      aret (VEither r)
    else
      error <- call (lift (Either_unwrapError either)) ;;
      pending <- call (fn error) ;;
      mappedError <- await pending ;;
      l <- call (left mappedError) ;;
      aret (VEither l))%async).

Definition AsyncEither_recover (this : AsyncEither) (fn : Value -> Js Value)
  : Js AsyncEither :=
  AsyncEither_chain this (fun x => async (
    either <- call (lift (receiver x)) ;;
    if Either_isRight either then
      value <- call (lift (Either_unwrap either)) ;;
      r <- call (right value) ;;
      aret (VEither r)
    else
      pending <- call (fn x) ;;
      result <- await pending ;;
      match result with
      | VAsyncEither handle => aret (VPromise handle)
      | _ => aret result
      end)%async).

(** The default of [getOrElse]/[getErrorOrElse]: a plain value, or a
    zero-argument producer ([defaultValue instanceof Function]). *)
Inductive Default : Type :=
| Plain (v : Value)
| Producer (produce : Js Value).

Definition AsyncEither_getOrElse (this : AsyncEither) (defaultValue : Default)
  : Js Promise :=
  async_promise (
    x <- await (VPromise (promise this)) ;;
    either <- call (lift (receiver x)) ;;
    if Either_isRight either then call (lift (Either_unwrap either))
    else match defaultValue with
         | Producer produce => call produce
         | Plain v => aret v
         end)%async.

Definition AsyncEither_getErrorOrElse (this : AsyncEither) (defaultError : Default)
  : Js Promise :=
  async_promise (
    x <- await (VPromise (promise this)) ;;
    either <- call (lift (receiver x)) ;;
    if Either_isLeft either then call (lift (Either_unwrapError either))
    else match defaultError with
         | Producer produce => call produce
         | Plain v => aret v
         end)%async.

Definition AsyncEither_tap (this : AsyncEither) (fn : Value -> Js Value)
  : Js AsyncEither :=
  AsyncEither_chain this (fun x => async (
    either <- call (lift (receiver x)) ;;
    if negb (Either_isRight either) then aret x
    else
      atry_catch
        (value <- call (lift (Either_unwrap either)) ;;
         pending <- call (fn value) ;;
         await pending ;;;
         aret tt)
        (fun error =>
           call (console_error [VStr "An error occurred at tap"; error])) ;;;
      aret x)%async).

Definition AsyncEither_tapError (this : AsyncEither) (fn : Value -> Js Value)
  : Js AsyncEither :=
  AsyncEither_chain this (fun x => async (
    either <- call (lift (receiver x)) ;;
    if negb (Either_isLeft either) then aret x
    else
      atry_catch
        (error <- call (lift (Either_unwrapError either)) ;;
         pending <- call (fn error) ;;
         await pending ;;;
         aret tt)
        (fun error =>
           call (console_error [VStr "An error occurred at tapError"; error])) ;;;
      aret x)%async).

Definition AsyncEither_tapBoth (this : AsyncEither)
    (rightFn leftFn : option (Value -> Js Value)) : Js AsyncEither :=
  p <- Promise_then (promise this)
         (Some (fun x => async (
            either <- call (lift (receiver x)) ;;
            match Either_isRight either, rightFn with
            | true, Some f =>
                tapped <- call (AsyncEither_tap this f) ;;
                await (VAsyncEither (promise tapped)) ;;;
                aret x
            | _, _ =>
                match Either_isLeft either, leftFn with
                | true, Some f =>
                    tapped <- call (AsyncEither_tapError this f) ;;
                    await (VAsyncEither (promise tapped)) ;;;
                    aret x
                | _, _ => aret x
                end
            end)%async))
         None ;;
  new_AsyncEither (VPromise p).

Definition asyncRight (value : Value) : Js AsyncEither :=
  r <- right value ;; AsyncEither_fromEither r.

Definition asyncLeft (error : Value) : Js AsyncEither :=
  l <- left error ;; AsyncEither_fromEither l.

(** ** The rest of the two classes

    [toResult] of [Left] and [Right] (src/either/left.ts,
    src/unnamed/part_002): the plain object [{ success: true, value }] or
    [{ success: false, error }]. *)

Inductive ResultObject : Type :=
| Success (value : Value)
| Failure (error : Value).

(** The [success] field of the object. *)
Definition success (r : ResultObject) : bool :=
  match r with
  | Success _ => true
  | Failure _ => false
  end.

Definition Either_toResult (this : Either) : ResultObject :=
  match this with
  | Left _ error => Failure error
  | Right _ value => Success value
  end.

(** [AsyncEither.filter], from the copy of the class that has it
    (src/unnamed/part_004). *)
Definition AsyncEither_filter (this : AsyncEither)
    (predicate errorFactory : Value -> Js Value) : Js AsyncEither :=
  AsyncEither_chain this (fun x => async (
    either <- call (lift (receiver x)) ;;
    if Either_isLeft either then
      error <- call (lift (Either_unwrapError either)) ;;
      l <- call (left error) ;;
      aret (VEither l)
    else
      value <- call (lift (Either_unwrap either)) ;;
      pending <- call (predicate value) ;;
      predicateResult <- await pending ;;
      if truthy predicateResult then
        r <- call (right value) ;;
        aret (VEither r)
      else
        e <- call (errorFactory value) ;;
        l <- call (left e) ;;
        aret (VEither l))%async).

Definition AsyncEither_isRight (this : AsyncEither) : Js Promise :=
  async_promise (
    x <- await (VPromise (promise this)) ;;
    either <- call (lift (receiver x)) ;;
    aret (VBool (Either_isRight either)))%async.

Definition AsyncEither_isLeft (this : AsyncEither) : Js Promise :=
  async_promise (
    x <- await (VPromise (promise this)) ;;
    either <- call (lift (receiver x)) ;;
    aret (VBool (Either_isLeft either)))%async.

(** The body of the [async] method [toResult].  The object it returns is
    not a thenable: the promise of the method is fulfilled with it when the
    body returns, rejected when it raises, pending when it stays
    suspended. *)
Definition AsyncEither_toResult (this : AsyncEither) : Async ResultObject :=
  (x <- await (VPromise (promise this)) ;;
   eitherInstance <- call (lift (receiver x)) ;;
   aret (Either_toResult eitherInstance))%async.

(** ** Value equality

    [toEqual] compares instances by class and payload, recursively, and
    does not see object identity. *)

Fixpoint anonymize (x : Value) : Value :=
  match x with
  | VEither e => VEither (anonymize_either e)
  | VPromise p => VPromise (anonymize_promise p)
  | VAsyncEither handle => VAsyncEither (anonymize_promise handle)
  | _ => x
  end
with anonymize_either (e : Either) : Either :=
  match e with
  | Left _ error => Left 0 (anonymize error)
  | Right _ value => Right 0 (anonymize value)
  end
with anonymize_promise (p : Promise) : Promise :=
  match p with
  | Fulfilled v => Fulfilled (anonymize v)
  | Rejected reason => Rejected (anonymize reason)
  | Pending => Pending
  end.

Definition value_equal (a b : Either) : Prop :=
  anonymize_either a = anonymize_either b.

(** Two runs agree when they leave the same console and either both
    return value-equal results or both throw value-equal exceptions. *)
Definition agree (r1 r2 : Completion Value * World) : Prop :=
  console (snd r1) = console (snd r2) /\
  match fst r1, fst r2 with
  | Normal a, Normal b => anonymize a = anonymize b
  | Throw e1, Throw e2 => anonymize e1 = anonymize e2
  | _, _ => False
  end.

Definition same_outcome (r1 r2 : Completion Either * World) : Prop :=
  console (snd r1) = console (snd r2) /\
  match fst r1, fst r2 with
  | Normal a, Normal b => value_equal a b
  | Throw e1, Throw e2 => anonymize e1 = anonymize e2
  | _, _ => False
  end.

(** A callback cannot observe how many objects have been allocated: run
    in two worlds with the same console, it behaves the same up to the
    identity of the objects it creates. *)
Definition allocation_blind (g : Value -> Js Value) : Prop :=
  forall a w1 w2, console w1 = console w2 -> agree (g a w1) (g a w2).

(** * Vocabulary of the specification *)

(** A pure function, possibly partial (it may throw), used as a callback. *)
Definition pure (f : Value -> Completion Value) : Value -> Js Value :=
  fun x => lift (f x).

(** A callback that only records its call on the console: a spy. *)
Definition spy (x : Value) : Js Value :=
  console_log [VStr "called"; x] ;;; ret VUndefined.

(** A callback that throws its argument. *)
Definition thrower (x : Value) : Js Value := throw x.

(** A callback that returns a promise rejecting with its argument. *)
Definition rejecter (x : Value) : Js Value := ret (VPromise (Rejected x)).

(** [v => right(v)] *)
Definition boxer (x : Value) : Js Value := r <- right x ;; ret (VEither r).

(** [e => e.unwrapError()] *)
Definition call_unwrapError (x : Value) : Js Value :=
  either <- lift (receiver x) ;; lift (Either_unwrapError either).

(** The world that holds exactly the given instances and a silent console. *)
Definition world_of (objects : list Either) : World :=
  {| heap := objects; console := [] |}.

(** The world before anything happened. *)
Definition w0 : World := world_of [].

(** The world after a callback ran inside [try]/[catch]: when it threw,
    the handler's two console calls are appended. *)
Definition after_tap (label : string) (r : Completion Value * World) : World :=
  match r with
  | (Normal _, w1) => w1
  | (Throw ex, w1) =>
      print (mkCall console_error_m [ex])
        (print (mkCall console_log_m [VStr label]) w1)
  end.

(** The AsyncEither whose handle is fulfilled with the instance [e]. *)
Definition settled (e : Either) : AsyncEither :=
  {| promise := Fulfilled (VEither e) |}.

(** The AsyncEither whose handle never settles. *)
Definition never_settles : AsyncEither := {| promise := Pending |}.

(** What the constructor makes of a promise, by its settlement. *)
Definition wrap (p : Promise) (w : World) : Completion AsyncEither * World :=
  match p with
  | Fulfilled v =>
      if instanceof_Either v then (Normal {| promise := Fulfilled v |}, w)
      else (Normal (settled (Right (next_oid w) v)), alloc (Right (next_oid w) v) w)
  | Rejected reason =>
      (Normal (settled (Left (next_oid w) reason)), alloc (Left (next_oid w) reason) w)
  | Pending => (Normal never_settles, w)
  end.

Definition is_rejected (p : Promise) : bool :=
  match p with
  | Rejected _ => true
  | _ => false
  end.

(** The handle of a constructed AsyncEither either is fulfilled with an
    [Either] instance or never settles. *)
Definition holds_either (p : Promise) : Prop :=
  match p with
  | Fulfilled v => instanceof_Either v = true
  | Rejected _ => False
  | Pending => True
  end.

(** Building a wrapper returns normally and its handle is not rejected. *)
Definition not_rejected (r : Completion AsyncEither * World) : Prop :=
  exists ae w', r = (Normal ae, w') /\ is_rejected (promise ae) = false.

(** Calling a callback and awaiting what it returns. *)
Definition call_and_await (r : Completion Value * World) : AsyncCompletion Value * World :=
  match r with
  | (Normal pending, w1) => await pending w1
  | (Throw ex, w1) => (Raised ex, w1)
  end.

(** What an asynchronous tap makes of its callback's outcome: the wrapper
    settles to the instance [x] it started from; an exception or a
    rejection is reported with [console.error] and dropped. *)
Definition tapped (label : string) (x : Either)
    (r : AsyncCompletion Value * World) : Completion AsyncEither * World :=
  match r with
  | (Returned _, w1) => (Normal (settled x), w1)
  | (Raised ex, w1) =>
      (Normal (settled x), print (mkCall console_error_m [VStr label; ex]) w1)
  | (Suspended, w1) => (Normal never_settles, w1)
  end.

(** The wrapper either settles to the instance [x] itself or, when the
    callback's promise never settles, stays pending; it is never rejected
    and never settles to anything else. *)
Definition settles_to_or_waits (x : Either) (r : Completion AsyncEither * World) : Prop :=
  exists w', r = (Normal (settled x), w') \/ r = (Normal never_settles, w').

(** [x] is an instance of the store of [w]. *)
Definition stored (w : World) (x : Either) : Prop :=
  nth_error (heap w) (oid_of x) = Some x.

(** Every instance of [w] is in [w'], unchanged; [w'] may hold more. *)
Definition extends (w w' : World) : Prop :=
  exists more, heap w' = (heap w ++ more)%list.

(** A callback may create instances; it cannot write to one. *)
Definition only_allocates {A} (f : Value -> Js A) : Prop :=
  forall a w, extends w (snd (f a w)).

(** The combinator [op] returns an instance other than its receiver. *)
Definition returns_new_instance (op : Either -> Js Either) : Prop :=
  forall x w y w',
    stored w x -> op x w = (Normal y, w') -> oid_of y <> oid_of x.

(** The run [r], started in [w] on the receiver [x], leaves the instances
    of [w] as they were, and when it returns, it returns an instance that
    did not exist in [w], is not [x], and is in the store afterwards. *)
Definition produces_new (w : World) (x : Either) (r : Completion Either * World) : Prop :=
  extends w (snd r) /\
  match fst r with
  | Normal y => next_oid w <= oid_of y /\ oid_of y <> oid_of x /\ stored (snd r) y
  | Throw _ => True
  end.

(** The run [r], started in [w] on the receiver [x], leaves the instances
    of [w] as they were and returns [x] itself. *)
Definition returns_receiver (w : World) (x : Either) (r : Completion Either * World) : Prop :=
  extends w (snd r) /\ fst r = Normal x.

(** [e => e.unwrap()] *)
Definition call_unwrap (x : Value) : Js Value :=
  either <- lift (receiver x) ;; lift (Either_unwrap either).

(** A boolean test used as a predicate callback. *)
Definition test (p : Value -> bool) : Value -> Js Value :=
  fun x => ret (VBool (p x)).

(** The wrapper built from a failure [ex] caught in [w]: settled to a new
    [Left] holding [ex]. *)
Definition captured (ex : Value) (w : World) : Completion AsyncEither * World :=
  (Normal (settled (Left (next_oid w) ex)), alloc (Left (next_oid w) ex) w).

(** What an asynchronous combinator makes of the run of the synchronous
    one: the instance it returns becomes the settlement, the exception it
    throws is captured. *)
Definition lifted (r : Completion Either * World) : Completion AsyncEither * World :=
  match r with
  | (Normal y, w') => (Normal (settled y), w')
  | (Throw ex, w') => captured ex w'
  end.

(** A run that builds a wrapper whose handle holds an [Either] or never
    settles. *)
Definition builds_wrapper (r : Completion AsyncEither * World) : Prop :=
  exists ae w', r = (Normal ae, w') /\ holds_either (promise ae).

(** Unfolds the steps of an [async] body. *)
Ltac run_async :=
  unfold call_and_await, tapped, abind, atry_catch, call, lift, await, aret,
    console_error, right, left, new_Right, new_Left; simpl.

(** * Properties of the synchronous Either *)

Lemma value_equal_refl (a : Either) : value_equal a a.
Proof. reflexivity. Qed.

Lemma value_equal_sym (a b : Either) : value_equal a b -> value_equal b a.
Proof. unfold value_equal; intros H; symmetry; exact H. Qed.

Lemma value_equal_trans (a b c : Either) :
  value_equal a b -> value_equal b c -> value_equal a c.
Proof. unfold value_equal; intros H1 H2; rewrite H1; exact H2. Qed.

Lemma value_equal_variant (a b : Either) :
  value_equal a b -> Either_isLeft a = Either_isLeft b.
Proof. destruct a, b; unfold value_equal; simpl; intros H; congruence. Qed.

(** ** unwrap and unwrapError *)

Example unwrap_right_5 :
  (x <- right (VNum 5) ;; lift (Either_unwrap x)) w0
  = (Normal (VNum 5), world_of [Right 0 (VNum 5)]).
Proof. reflexivity. Qed.

Example unwrap_default_error :
  new_EitherUnwrapError None None
  = VError (mkError Class_EitherUnwrapError "Either unwrap error" (Some "EITHER_UNWRAP_ERROR")).
Proof. reflexivity. Qed.

(** C2: [right(v).unwrap()] returns [v] and [left(e).unwrapError()] returns
    [e]; [left(e).unwrap()] throws an [EitherUnwrapError] with message
    "Cannot unwrap Left instance" and [right(v).unwrapError()] throws one
    with message "Cannot unwrapError Right instance". *)
Theorem C2_unwrap_contract (v e : Value) (w : World) :
  (x <- right v ;; lift (Either_unwrap x)) w =
    (Normal v, alloc (Right (next_oid w) v) w) /\
  (x <- left e ;; lift (Either_unwrapError x)) w =
    (Normal e, alloc (Left (next_oid w) e) w) /\
  (x <- left e ;; lift (Either_unwrap x)) w =
    (Throw (VError (mkError Class_EitherUnwrapError
                      "Cannot unwrap Left instance" (Some "EITHER_UNWRAP_ERROR"))),
     alloc (Left (next_oid w) e) w) /\
  (x <- right v ;; lift (Either_unwrapError x)) w =
    (Throw (VError (mkError Class_EitherUnwrapError
                      "Cannot unwrapError Right instance" (Some "EITHER_UNWRAP_ERROR"))),
     alloc (Right (next_oid w) v) w) /\
  (forall i, Either_unwrap (Right i v) = Normal v) /\
  (forall i, Either_unwrapError (Left i e) = Normal e).
Proof. repeat split. Qed.

(** ** The functor laws *)

Lemma pure_allocation_blind (f : Value -> Completion Value) :
  allocation_blind (pure f).
Proof.
  intros a w1 w2 Hc. unfold agree, pure, lift; simpl. split; [exact Hc |].
  destruct (f a); reflexivity.
Qed.

Lemma boxer_allocation_blind : allocation_blind boxer.
Proof. intros a w1 w2 Hc. split; [exact Hc | reflexivity]. Qed.

Lemma map_identity (x : Either) (w : World) :
  exists y w', Either_map x (fun v => ret v) w = (Normal y, w') /\ value_equal y x.
Proof.
  destruct x as [i e | i v]; eexists; eexists; split; reflexivity.
Qed.

Lemma map_composition (x : Either) (f g : Value -> Js Value) (w : World) :
  allocation_blind g ->
  same_outcome
    ((y <- Either_map x f ;; Either_map y g) w)
    (Either_map x (fun v => a <- f v ;; g a) w).
Proof.
  intros Hg. destruct x as [i e | i v].
  - split; reflexivity.
  - unfold same_outcome, Either_map, bind, new_Right.
    destruct (f v w) as [[a | ex] w1]; simpl.
    + destruct (Hg a (alloc (Right (next_oid w1) a) w1) w1 eq_refl) as [Hc Hr].
      destruct (g a (alloc (Right (next_oid w1) a) w1)) as [[b1 | e1] u1],
               (g a w1) as [[b2 | e2] u2];
        simpl in *; try contradiction; split; trivial.
      unfold value_equal; simpl. now rewrite Hr.
    + split; reflexivity.
Qed.

Example map_twice :
  (y <- Either_map (Right 0 (VNum 5)) spy ;; Either_map y boxer)
    (world_of [Right 0 (VNum 5)])
  = (Normal (Right 3 (VEither (Right 2 VUndefined))),
     {| heap := [Right 0 (VNum 5); Right 1 VUndefined; Right 2 VUndefined;
                 Right 3 (VEither (Right 2 VUndefined))];
        console := [mkCall console_log_m [VStr "called"; VNum 5]] |}).
Proof. reflexivity. Qed.

Example map_composed :
  Either_map (Right 0 (VNum 5)) (fun v => a <- spy v ;; boxer a)
    (world_of [Right 0 (VNum 5)])
  = (Normal (Right 2 (VEither (Right 1 VUndefined))),
     {| heap := [Right 0 (VNum 5); Right 1 VUndefined;
                 Right 2 (VEither (Right 1 VUndefined))];
        console := [mkCall console_log_m [VStr "called"; VNum 5]] |}).
Proof. reflexivity. Qed.

(** C3: the synchronous [map] satisfies the functor laws on both variants,
    up to value equality: mapping the identity [x => x] gives back an
    Either value-equal to the receiver, and mapping [f] then [g] gives an
    Either value-equal to mapping [x => g(f(x))]. *)
Theorem C3_functor_laws (x : Either) (f g : Value -> Js Value) (w : World)
    (Hg : allocation_blind g) :
  (exists y w', Either_map x (fun v => ret v) w = (Normal y, w') /\ value_equal y x) /\
  same_outcome
    ((y <- Either_map x f ;; Either_map y g) w)
    (Either_map x (fun v => a <- f v ;; g a) w).
Proof. split; [apply map_identity | apply map_composition; exact Hg]. Qed.

Lemma C3_functor_laws_witness :
  allocation_blind boxer /\
  same_outcome
    ((y <- Either_map (Right 0 (VNum 5)) spy ;; Either_map y boxer)
       (world_of [Right 0 (VNum 5)]))
    (Either_map (Right 0 (VNum 5)) (fun v => a <- spy v ;; boxer a)
       (world_of [Right 0 (VNum 5)])).
Proof.
  assert (Hg : allocation_blind boxer).
  { intros a w1 w2 Hc. split; [exact Hc | reflexivity]. }
  split; [exact Hg |].
  exact (proj2 (C3_functor_laws (Right 0 (VNum 5)) spy boxer
                  (world_of [Right 0 (VNum 5)]) Hg)).
Defined.

(** ** filter, map and flatMap on the two variants *)

Lemma filter_left (i : nat) (e : Value) (p ef : Value -> Js Value) (w : World) :
  Either_filter (Left i e) p ef w =
    (Normal (Left (next_oid w) e), alloc (Left (next_oid w) e) w).
Proof. reflexivity. Qed.

Lemma filter_right (i : nat) (v r : Value) (p ef : Value -> Js Value) (w w1 : World) :
  p v w = (Normal r, w1) ->
  Either_filter (Right i v) p ef w =
    if truthy r then (Normal (Right (next_oid w1) v), alloc (Right (next_oid w1) v) w1)
    else match ef v w1 with
         | (Normal e, w2) => (Normal (Left (next_oid w2) e), alloc (Left (next_oid w2) e) w2)
         | (Throw ex, w2) => (Throw ex, w2)
         end.
Proof.
  intros Hp. unfold Either_filter, bind. rewrite Hp.
  destruct (truthy r); [reflexivity |].
  destruct (ef v w1) as [[e | ex] w2]; reflexivity.
Qed.

Example filter_positive :
  Either_filter (Right 0 (VNum 3))
    (fun x => ret (VBool (match x with VNum n => (0 <? n)%Z | _ => false end)))
    (fun x => ret (VStr "Invalid value")) (world_of [Right 0 (VNum 3)])
  = (Normal (Right 1 (VNum 3)), world_of [Right 0 (VNum 3); Right 1 (VNum 3)]).
Proof. reflexivity. Qed.

Example filter_negative :
  Either_filter (Right 0 (VNum (-3)))
    (fun x => ret (VBool (match x with VNum n => (0 <? n)%Z | _ => false end)))
    (fun x => ret (VStr "Invalid value")) (world_of [Right 0 (VNum (-3))])
  = (Normal (Left 1 (VStr "Invalid value")),
     world_of [Right 0 (VNum (-3)); Left 1 (VStr "Invalid value")]).
Proof. reflexivity. Qed.

(** C5: [right(v).filter(p, ef)] is a [Right] holding [v] when [p(v)] is
    true and a [Left] holding [ef(v)] when [p(v)] is false;
    [left(e).filter(p, ef)] is a [Left] holding [e] whatever [p] and [ef]
    are, and neither of them is called: nothing but the allocation of the
    result happens. *)
Theorem C5_filter (i : nat) (v e : Value) (p ef : Value -> Js Value) (w : World) :
  (forall w1, p v w = (Normal (VBool true), w1) ->
     Either_filter (Right i v) p ef w =
       (Normal (Right (next_oid w1) v), alloc (Right (next_oid w1) v) w1)) /\
  (forall w1 e' w2, p v w = (Normal (VBool false), w1) -> ef v w1 = (Normal e', w2) ->
     Either_filter (Right i v) p ef w =
       (Normal (Left (next_oid w2) e'), alloc (Left (next_oid w2) e') w2)) /\
  Either_filter (Left i e) p ef w =
    (Normal (Left (next_oid w) e), alloc (Left (next_oid w) e) w).
Proof.
  split; [| split].
  - intros w1 Hp. now rewrite (filter_right _ _ _ _ _ _ _ Hp).
  - intros w1 e' w2 Hp He. rewrite (filter_right _ _ _ _ _ _ _ Hp). simpl.
    now rewrite He.
  - apply filter_left.
Qed.

Lemma C5_filter_witness :
  Either_filter (Right 0 (VNum 3))
    (fun _ => ret (VBool true)) spy (world_of [Right 0 (VNum 3)])
    = (Normal (Right 1 (VNum 3)), world_of [Right 0 (VNum 3); Right 1 (VNum 3)]) /\
  Either_filter (Right 0 (VNum 3))
    (fun _ => ret (VBool false)) (fun x => ret (VStr "odd")) (world_of [Right 0 (VNum 3)])
    = (Normal (Left 1 (VStr "odd")), world_of [Right 0 (VNum 3); Left 1 (VStr "odd")]) /\
  Either_filter (Left 0 (VStr "err")) thrower thrower (world_of [Left 0 (VStr "err")])
    = (Normal (Left 1 (VStr "err")), world_of [Left 0 (VStr "err"); Left 1 (VStr "err")]).
Proof.
  split; [| split].
  - exact (proj1 (C5_filter 0 (VNum 3) VNull (fun _ => ret (VBool true)) spy
                    (world_of [Right 0 (VNum 3)]))
             (world_of [Right 0 (VNum 3)]) eq_refl).
  - exact (proj1 (proj2 (C5_filter 0 (VNum 3) VNull (fun _ => ret (VBool false))
                           (fun x => ret (VStr "odd")) (world_of [Right 0 (VNum 3)])))
             (world_of [Right 0 (VNum 3)]) (VStr "odd") (world_of [Right 0 (VNum 3)])
             eq_refl eq_refl).
  - exact (proj2 (proj2 (C5_filter 0 VNull (VStr "err") thrower thrower
                           (world_of [Left 0 (VStr "err")])))).
Defined.

Example left_map_thrower :
  Either_map (Left 0 (VStr "err")) thrower (world_of [Left 0 (VStr "err")])
  = (Normal (Left 1 (VStr "err")), world_of [Left 0 (VStr "err"); Left 1 (VStr "err")]).
Proof. reflexivity. Qed.

(** C6: [left(e).map(f)] is a [Left] holding [e] unchanged and
    [left(e).flatMap(f)] is a [Left] holding [e]; in both [f] is never
    called (the result and the world do not depend on it); and
    [right(v).flatMap(f)] is [f(v)] itself. *)
Theorem C6_left_absorbs (i : nat) (e v : Value)
    (f : Value -> Js Value) (g : Value -> Js Either) (w : World) :
  Either_map (Left i e) f w =
    (Normal (Left (next_oid w) e), alloc (Left (next_oid w) e) w) /\
  Either_flatMap (Left i e) g w =
    (Normal (Left (next_oid w) e), alloc (Left (next_oid w) e) w) /\
  Either_flatMap (Right i v) g w = g v w /\
  (let w1 := alloc (Left (next_oid w) e) w in
   (x <- left e ;; Either_map x f) w =
     (Normal (Left (next_oid w1) e), alloc (Left (next_oid w1) e) w1) /\
   (x <- left e ;; Either_flatMap x g) w =
     (Normal (Left (next_oid w1) e), alloc (Left (next_oid w1) e) w1)) /\
  (x <- right v ;; Either_flatMap x g) w = g v (alloc (Right (next_oid w) v) w).
Proof. repeat split. Qed.

(** ** The tap family never changes the instance and never throws *)

Lemma tap_right (i : nat) (v : Value) (f : Value -> Js Value) (w : World) :
  Either_tap (Right i v) f w =
    (Normal (Right i v), after_tap "[Either/Right] Error on tap" (f v w)).
Proof.
  unfold Either_tap, bind, try_catch, after_tap.
  destruct (f v w) as [[r | ex] w1]; reflexivity.
Qed.

Lemma tap_left (i : nat) (e : Value) (f : Value -> Js Value) (w : World) :
  Either_tap (Left i e) f w = (Normal (Left i e), w).
Proof. reflexivity. Qed.

Lemma tapError_left (i : nat) (e : Value) (f : Value -> Js Value) (w : World) :
  Either_tapError (Left i e) f w =
    (Normal (Left i e), after_tap "[Either/Left] Error on tapError" (f e w)).
Proof.
  unfold Either_tapError, bind, try_catch, after_tap.
  destruct (f e w) as [[r | ex] w1]; reflexivity.
Qed.

Lemma tapError_right (i : nat) (v : Value) (f : Value -> Js Value) (w : World) :
  Either_tapError (Right i v) f w = (Normal (Right i v), w).
Proof. reflexivity. Qed.

Lemma tap_returns_this (x : Either) (f : Value -> Js Value) (w : World) :
  fst (Either_tap x f w) = Normal x.
Proof. destruct x; [reflexivity | now rewrite tap_right]. Qed.

Lemma tapError_returns_this (x : Either) (f : Value -> Js Value) (w : World) :
  fst (Either_tapError x f w) = Normal x.
Proof. destruct x; [now rewrite tapError_left | reflexivity]. Qed.

Lemma tapBoth_returns_this (x : Either) (rf lf : option (Value -> Js Value)) (w : World) :
  fst (Either_tapBoth x rf lf w) = Normal x.
Proof.
  destruct x; unfold Either_tapBoth.
  - destruct lf; [now rewrite tapError_left | reflexivity].
  - destruct rf; [now rewrite tap_right | reflexivity].
Qed.

Example tap_thrower :
  Either_tap (Right 0 (VStr "v")) thrower (world_of [Right 0 (VStr "v")]) =
    (Normal (Right 0 (VStr "v")),
     {| heap := [Right 0 (VStr "v")];
        console := [mkCall console_log_m [VStr "[Either/Right] Error on tap"];
                    mkCall console_error_m [VStr "v"]] |}).
Proof. reflexivity. Qed.

(** * Properties of promises and of the AsyncEither constructor *)

Lemma resolve_adopt_idempotent :
  (forall x : Value, adopt (resolve x) = resolve x) /\
  (forall e : Either, True) /\
  (forall p : Promise, adopt (adopt p) = adopt p).
Proof.
  apply Value_Either_Promise_ind; intros; simpl; trivial.
Qed.

Lemma adopt_resolve (x : Value) : adopt (resolve x) = resolve x.
Proof. apply resolve_adopt_idempotent. Qed.

Lemma adopt_adopt (p : Promise) : adopt (adopt p) = adopt p.
Proof. apply resolve_adopt_idempotent. Qed.

(** A promise is never fulfilled with a thenable. *)
Lemma resolve_not_thenable :
  (forall x z, resolve x = Fulfilled z -> thenable z = false) /\
  (forall e : Either, True) /\
  (forall p z, adopt p = Fulfilled z -> thenable z = false).
Proof.
  apply Value_Either_Promise_ind; simpl; trivial;
    try (intros; match goal with H : Fulfilled _ = Fulfilled _ |- _ =>
                   inversion H; subst; reflexivity end);
    try discriminate; auto.
Qed.

Lemma resolve_plain (v : Value) : thenable v = false -> resolve v = Fulfilled v.
Proof. destruct v; simpl; intros H; try reflexivity; discriminate. Qed.

Lemma resolve_fulfilled_stable (x v : Value) :
  resolve x = Fulfilled v -> resolve v = Fulfilled v.
Proof. intros H. apply resolve_plain. exact (proj1 resolve_not_thenable _ _ H). Qed.

Lemma await_returns (x v : Value) (w w' : World) :
  await x w = (Returned v, w') ->
  resolve x = Fulfilled v /\ thenable v = false /\ w' = w.
Proof.
  unfold await. destruct (resolve x) as [u | r |] eqn:E; intros H; inversion H; subst.
  repeat split. exact (proj1 resolve_not_thenable _ _ E).
Qed.

Lemma Promise_then_returns (p : Promise) (f g : option (Value -> Js Value)) (w : World) :
  exists q w', Promise_then p f g w = (Normal q, w').
Proof.
  unfold Promise_then, settle, ret.
  destruct p as [v | r |].
  - destruct f as [f |]; [destruct (f v w) as [[a | e] w1] |]; eauto.
  - destruct g as [g |]; [destruct (g r w) as [[a | e] w1] |]; eauto.
  - eauto.
Qed.

Lemma new_AsyncEither_wrap (x : Value) (w : World) :
  new_AsyncEither x w = wrap (resolve x) w.
Proof.
  unfold new_AsyncEither, Promise_catch, Promise_then, settle, bind, ret, wrap.
  destruct (resolve x) as [v | r |]; [destruct v | |]; reflexivity.
Qed.

Lemma wrap_holds_either (p : Promise) (w : World) :
  exists ae w', wrap p w = (Normal ae, w') /\ holds_either (promise ae).
Proof.
  destruct p as [v | r |]; simpl.
  - destruct (instanceof_Either v) eqn:E; eexists; eexists; split;
      try reflexivity; simpl; trivial.
  - eexists; eexists; split; reflexivity.
  - eexists; eexists; split; [reflexivity | exact I].
Qed.

Lemma new_AsyncEither_wraps (x : Value) (w : World) :
  exists ae w', new_AsyncEither x w = (Normal ae, w') /\ holds_either (promise ae).
Proof. rewrite new_AsyncEither_wrap. apply wrap_holds_either. Qed.

Lemma holds_either_not_rejected (p : Promise) : holds_either p -> is_rejected p = false.
Proof. destruct p; simpl; intros H; trivial; contradiction. Qed.

Lemma wraps_not_rejected (r : Completion AsyncEither * World) :
  (exists ae w', r = (Normal ae, w') /\ holds_either (promise ae)) -> not_rejected r.
Proof.
  intros (ae & w' & E & H). exists ae, w'. split; [exact E |].
  now apply holds_either_not_rejected.
Qed.

Lemma chain_wraps (this : AsyncEither) (transform : Value -> Js Value) (w : World) :
  exists ae w', AsyncEither_chain this transform w = (Normal ae, w') /\
                holds_either (promise ae).
Proof.
  unfold AsyncEither_chain, bind.
  destruct (Promise_then_returns (promise this) (Some transform) None w) as (q & w1 & E).
  rewrite E. apply new_AsyncEither_wraps.
Qed.

(** A continuation written as an [async] arrow function, chained on a
    handle that is fulfilled with [x]: the body runs on [x] and the new
    wrapper is built from what the body returns, raises or waits for. *)
Lemma chain_async (x : Value) (body : Value -> Async Value) (w : World) :
  AsyncEither_chain {| promise := Fulfilled x |} (fun y => async (body y)) w =
    match body x w with
    | (Returned v, w1) => wrap (resolve v) w1
    | (Raised e, w1) => wrap (Rejected e) w1
    | (Suspended, w1) => wrap Pending w1
    end.
Proof.
  unfold AsyncEither_chain, bind. simpl.
  unfold settle, async, bind, async_promise, ret.
  destruct (body x w) as [[v | e |] w1]; rewrite new_AsyncEither_wrap; simpl;
    try reflexivity.
  now rewrite !adopt_resolve.
Qed.

Lemma chain_pending (transform : Value -> Js Value) (w : World) :
  AsyncEither_chain never_settles transform w = (Normal never_settles, w).
Proof. reflexivity. Qed.

(** * Properties of the AsyncEither combinators *)

Lemma async_map_left (i : nat) (e : Value) (fn : Value -> Js Value) (w : World) :
  AsyncEither_map (settled (Left i e)) fn w =
    (Normal (settled (Left (next_oid w) e)), alloc (Left (next_oid w) e) w).
Proof. unfold AsyncEither_map, settled. rewrite chain_async. reflexivity. Qed.

Lemma async_flatMap_left (i : nat) (e : Value) (fn : Value -> Js Value) (w : World) :
  AsyncEither_flatMap (settled (Left i e)) fn w =
    (Normal (settled (Left (next_oid w) e)), alloc (Left (next_oid w) e) w).
Proof. unfold AsyncEither_flatMap, settled. rewrite chain_async. reflexivity. Qed.

Lemma async_map_right (i : nat) (v : Value) (fn : Value -> Js Value) (w : World) :
  AsyncEither_map (settled (Right i v)) fn w =
    match fn v w with
    | (Normal pending, w1) =>
        match resolve pending with
        | Fulfilled mapped =>
            (Normal (settled (Right (next_oid w1) mapped)),
             alloc (Right (next_oid w1) mapped) w1)
        | Rejected reason =>
            (Normal (settled (Left (next_oid w1) reason)),
             alloc (Left (next_oid w1) reason) w1)
        | Pending => (Normal never_settles, w1)
        end
    | (Throw ex, w1) =>
        (Normal (settled (Left (next_oid w1) ex)), alloc (Left (next_oid w1) ex) w1)
    end.
Proof.
  unfold AsyncEither_map, settled. rewrite chain_async. run_async.
  destruct (fn v w) as [[pending | ex] w1]; [| reflexivity].
  destruct (resolve pending) as [m | r |]; reflexivity.
Qed.

Lemma async_flatMap_right (i : nat) (v : Value) (fn : Value -> Js Value) (w : World) :
  AsyncEither_flatMap (settled (Right i v)) fn w =
    match fn v w with
    | (Normal pending, w1) => wrap (resolve pending) w1
    | (Throw ex, w1) =>
        (Normal (settled (Left (next_oid w1) ex)), alloc (Left (next_oid w1) ex) w1)
    end.
Proof.
  unfold AsyncEither_flatMap, settled. rewrite chain_async. run_async.
  destruct (fn v w) as [[pending | ex] w1]; [| reflexivity].
  destruct (resolve pending) as [m | r |] eqn:E; try reflexivity.
  pose proof (proj1 resolve_not_thenable _ _ E) as T.
  destruct m; simpl in T; try discriminate; simpl; reflexivity.
Qed.

(** After its [await], [flatMap] never sees an [AsyncEither]: the
    [instanceof AsyncEither] branch is not taken, the wrapper returned by
    the callback has already been adopted by [await]. *)
Lemma flatMap_await_flattens (pending result : Value) (w w' : World) :
  await pending w = (Returned result, w') -> instanceof_AsyncEither result = false.
Proof.
  intros H. apply await_returns in H. destruct H as (_ & T & _).
  destruct result; simpl in *; trivial; discriminate.
Qed.

Example asyncRight_map_toString :
  (a <- asyncRight (VNum 5) ;;
   AsyncEither_map a (fun x => ret (match x with VNum 5 => VStr "5" | _ => VStr "?" end))) w0
  = (Normal (settled (Right 1 (VStr "5"))),
     world_of [Right 0 (VNum 5); Right 1 (VStr "5")]).
Proof. reflexivity. Qed.

Example asyncLeft_map_toString :
  (a <- asyncLeft (VStr "err") ;; AsyncEither_map a thrower) w0
  = (Normal (settled (Left 1 (VStr "err"))),
     world_of [Left 0 (VStr "err"); Left 1 (VStr "err")]).
Proof. reflexivity. Qed.

Example asyncLeft_recover :
  (a <- asyncLeft (VStr "e") ;;
   AsyncEither_recover a (fun _ => b <- asyncRight (VNum 42) ;;
                                   ret (VAsyncEither (promise b)))) w0
  = (Normal (settled (Right 1 (VNum 42))),
     world_of [Left 0 (VStr "e"); Right 1 (VNum 42)]).
Proof. reflexivity. Qed.

Example asyncRight_flatMap_async :
  (a <- asyncRight (VNum 5) ;;
   AsyncEither_flatMap a (fun x => b <- asyncLeft x ;; ret (VAsyncEither (promise b)))) w0
  = (Normal (settled (Left 1 (VNum 5))),
     world_of [Right 0 (VNum 5); Left 1 (VNum 5)]).
Proof. reflexivity. Qed.

(** C4: on an AsyncEither that settles to a [Left], [map(f)] and
    [flatMap(f)] settle to a [Left] with the same error and [f] is not
    called; on one that settles to [Right(v)], [flatMap(f)] awaits [f(v)],
    and whether that is an Either, a promise of an Either or an
    AsyncEither, the result settles to that very Either, never to a
    [Right] holding it. *)
Theorem C4_async_flatMap (i : nat) (e v : Value) (y : Either)
    (fn : Value -> Js Value) (w : World) :
  AsyncEither_flatMap (settled (Left i e)) fn w =
    (Normal (settled (Left (next_oid w) e)), alloc (Left (next_oid w) e) w) /\
  AsyncEither_map (settled (Left i e)) fn w =
    (Normal (settled (Left (next_oid w) e)), alloc (Left (next_oid w) e) w) /\
  (forall pending w1,
     fn v w = (Normal pending, w1) ->
     pending = VEither y \/ pending = VPromise (Fulfilled (VEither y))
       \/ pending = VAsyncEither (promise (settled y)) ->
     AsyncEither_flatMap (settled (Right i v)) fn w = (Normal (settled y), w1)).
Proof.
  split; [apply async_flatMap_left | split; [apply async_map_left |]].
  intros pending w1 Hfn Hp. rewrite async_flatMap_right, Hfn.
  destruct Hp as [-> | [-> | ->]]; reflexivity.
Qed.

Lemma C4_async_flatMap_witness :
  AsyncEither_flatMap (settled (Right 0 (VNum 1)))
    (fun x => ret (VAsyncEither (promise (settled (Left 1 (VStr "no"))))))
    (world_of [Right 0 (VNum 1); Left 1 (VStr "no")])
  = (Normal (settled (Left 1 (VStr "no"))),
     world_of [Right 0 (VNum 1); Left 1 (VStr "no")]).
Proof.
  exact (proj2 (proj2 (C4_async_flatMap 0 VNull (VNum 1) (Left 1 (VStr "no"))
                         (fun x => ret (VAsyncEither (promise (settled (Left 1 (VStr "no"))))))
                         (world_of [Right 0 (VNum 1); Left 1 (VStr "no")])))
           _ (world_of [Right 0 (VNum 1); Left 1 (VStr "no")])
           eq_refl (or_intror (or_intror eq_refl))).
Defined.

(** ** The asynchronous tap family *)

Lemma async_tap_right (i : nat) (v : Value) (fn : Value -> Js Value) (w : World) :
  AsyncEither_tap (settled (Right i v)) fn w =
    tapped "An error occurred at tap" (Right i v) (call_and_await (fn v w)).
Proof.
  unfold AsyncEither_tap, settled. rewrite chain_async. run_async.
  destruct (fn v w) as [[pending | ex] w1]; [| reflexivity].
  destruct (resolve pending) as [m | r |]; reflexivity.
Qed.

Lemma async_tap_left (i : nat) (e : Value) (fn : Value -> Js Value) (w : World) :
  AsyncEither_tap (settled (Left i e)) fn w = (Normal (settled (Left i e)), w).
Proof. unfold AsyncEither_tap, settled. rewrite chain_async. reflexivity. Qed.

Lemma async_tapError_left (i : nat) (e : Value) (fn : Value -> Js Value) (w : World) :
  AsyncEither_tapError (settled (Left i e)) fn w =
    tapped "An error occurred at tapError" (Left i e) (call_and_await (fn e w)).
Proof.
  unfold AsyncEither_tapError, settled. rewrite chain_async. run_async.
  destruct (fn e w) as [[pending | ex] w1]; [| reflexivity].
  destruct (resolve pending) as [m | r |]; reflexivity.
Qed.

Lemma async_tapError_right (i : nat) (v : Value) (fn : Value -> Js Value) (w : World) :
  AsyncEither_tapError (settled (Right i v)) fn w = (Normal (settled (Right i v)), w).
Proof. unfold AsyncEither_tapError, settled. rewrite chain_async. reflexivity. Qed.

Lemma async_tapBoth_right (i : nat) (v : Value)
    (rightFn leftFn : option (Value -> Js Value)) (w : World) :
  AsyncEither_tapBoth (settled (Right i v)) rightFn leftFn w =
    match rightFn with
    | Some f => tapped "An error occurred at tap" (Right i v) (call_and_await (f v w))
    | None => (Normal (settled (Right i v)), w)
    end.
Proof.
  unfold AsyncEither_tapBoth, bind. simpl Promise_then.
  unfold settle, async, bind, async_promise, abind, call, lift, ret. simpl.
  destruct rightFn as [f |]; [| destruct leftFn; reflexivity].
  rewrite async_tap_right.
  unfold tapped, call_and_await, await.
  destruct (f v w) as [[pending | ex] w1]; [| reflexivity].
  destruct (resolve pending) as [m | r |]; reflexivity.
Qed.

Lemma async_tapBoth_left (i : nat) (e : Value)
    (rightFn leftFn : option (Value -> Js Value)) (w : World) :
  AsyncEither_tapBoth (settled (Left i e)) rightFn leftFn w =
    match leftFn with
    | Some f => tapped "An error occurred at tapError" (Left i e) (call_and_await (f e w))
    | None => (Normal (settled (Left i e)), w)
    end.
Proof.
  unfold AsyncEither_tapBoth, bind. simpl Promise_then.
  unfold settle, async, bind, async_promise, abind, call, lift, ret. simpl.
  destruct leftFn as [f |]; [| destruct rightFn; reflexivity].
  rewrite async_tapError_left.
  unfold tapped, call_and_await, await.
  destruct (f e w) as [[pending | ex] w1]; [| reflexivity].
  destruct (resolve pending) as [m | r |]; reflexivity.
Qed.

Lemma tapped_unchanged (label : string) (x : Either) (r : AsyncCompletion Value * World) :
  settles_to_or_waits x (tapped label x r).
Proof.
  destruct r as [[a | ex |] w1]; simpl; eexists; [left | left | right]; reflexivity.
Qed.

Lemma async_tap_unchanged (x : Either) (fn : Value -> Js Value) (w : World) :
  settles_to_or_waits x (AsyncEither_tap (settled x) fn w).
Proof.
  destruct x as [i e | i v].
  - rewrite async_tap_left. exists w. now left.
  - rewrite async_tap_right. apply tapped_unchanged.
Qed.

Lemma async_tapError_unchanged (x : Either) (fn : Value -> Js Value) (w : World) :
  settles_to_or_waits x (AsyncEither_tapError (settled x) fn w).
Proof.
  destruct x as [i e | i v].
  - rewrite async_tapError_left. apply tapped_unchanged.
  - rewrite async_tapError_right. exists w. now left.
Qed.

Lemma async_tapBoth_unchanged (x : Either)
    (rightFn leftFn : option (Value -> Js Value)) (w : World) :
  settles_to_or_waits x (AsyncEither_tapBoth (settled x) rightFn leftFn w).
Proof.
  destruct x as [i e | i v].
  - rewrite async_tapBoth_left. destruct leftFn.
    + apply tapped_unchanged.
    + exists w. now left.
  - rewrite async_tapBoth_right. destruct rightFn.
    + apply tapped_unchanged.
    + exists w. now left.
Qed.

(** C7: [tap], [tapError] and [tapBoth] return the receiver itself,
    whatever the callback does; an exception thrown by the callback is
    caught, written to the console and dropped.  The AsyncEither tap family
    does the same: the wrapper settles to the instance it started from, and
    an exception or a rejection of the callback is written with
    [console.error] and dropped. *)
Theorem C7_tap_swallows (x : Either) (i : nat) (v e : Value)
    (f : Value -> Js Value) (rf lf : option (Value -> Js Value)) (w : World) :
  (fst (Either_tap x f w) = Normal x /\
   fst (Either_tapError x f w) = Normal x /\
   fst (Either_tapBoth x rf lf w) = Normal x) /\
  (forall ex w1, f v w = (Throw ex, w1) ->
     let logged := print (mkCall console_error_m [ex])
                     (print (mkCall console_log_m [VStr "[Either/Right] Error on tap"]) w1) in
     let alogged := print (mkCall console_error_m [VStr "An error occurred at tap"; ex]) w1 in
     Either_tap (Right i v) f w = (Normal (Right i v), logged) /\
     Either_tapBoth (Right i v) (Some f) lf w = (Normal (Right i v), logged) /\
     AsyncEither_tap (settled (Right i v)) f w = (Normal (settled (Right i v)), alogged) /\
     AsyncEither_tapBoth (settled (Right i v)) (Some f) lf w =
       (Normal (settled (Right i v)), alogged)) /\
  (forall ex w1, f e w = (Throw ex, w1) ->
     let logged := print (mkCall console_error_m [ex])
                     (print (mkCall console_log_m [VStr "[Either/Left] Error on tapError"]) w1) in
     let alogged := print (mkCall console_error_m [VStr "An error occurred at tapError"; ex]) w1 in
     Either_tapError (Left i e) f w = (Normal (Left i e), logged) /\
     Either_tapBoth (Left i e) rf (Some f) w = (Normal (Left i e), logged) /\
     AsyncEither_tapError (settled (Left i e)) f w = (Normal (settled (Left i e)), alogged) /\
     AsyncEither_tapBoth (settled (Left i e)) rf (Some f) w =
       (Normal (settled (Left i e)), alogged)) /\
  (forall ex w1, f v w = (Normal (VPromise (Rejected ex)), w1) ->
     AsyncEither_tap (settled (Right i v)) f w =
       (Normal (settled (Right i v)),
        print (mkCall console_error_m [VStr "An error occurred at tap"; ex]) w1)) /\
  (forall ex w1, f e w = (Normal (VPromise (Rejected ex)), w1) ->
     AsyncEither_tapError (settled (Left i e)) f w =
       (Normal (settled (Left i e)),
        print (mkCall console_error_m [VStr "An error occurred at tapError"; ex]) w1)) /\
  (settles_to_or_waits x (AsyncEither_tap (settled x) f w) /\
   settles_to_or_waits x (AsyncEither_tapError (settled x) f w) /\
   settles_to_or_waits x (AsyncEither_tapBoth (settled x) rf lf w)).
Proof.
  split; [| split; [| split; [| split; [| split]]]].
  - split; [apply tap_returns_this | split;
      [apply tapError_returns_this | apply tapBoth_returns_this]].
  - intros ex w1 Hf. cbv zeta.
    unfold Either_tapBoth.
    rewrite tap_right, async_tap_right, async_tapBoth_right, Hf. repeat split.
  - intros ex w1 Hf. cbv zeta.
    unfold Either_tapBoth.
    rewrite tapError_left, async_tapError_left, async_tapBoth_left, Hf. repeat split.
  - intros ex w1 Hf. now rewrite async_tap_right, Hf.
  - intros ex w1 Hf. now rewrite async_tapError_left, Hf.
  - split; [apply async_tap_unchanged | split;
      [apply async_tapError_unchanged | apply async_tapBoth_unchanged]].
Qed.

Lemma C7_tap_swallows_witness :
  Either_tap (Right 0 (VStr "v")) thrower (world_of [Right 0 (VStr "v")]) =
    (Normal (Right 0 (VStr "v")),
     {| heap := [Right 0 (VStr "v")];
        console := [mkCall console_log_m [VStr "[Either/Right] Error on tap"];
                    mkCall console_error_m [VStr "v"]] |}) /\
  AsyncEither_tap (settled (Right 0 (VStr "v"))) thrower (world_of [Right 0 (VStr "v")]) =
    (Normal (settled (Right 0 (VStr "v"))),
     {| heap := [Right 0 (VStr "v")];
        console := [mkCall console_error_m [VStr "An error occurred at tap"; VStr "v"]] |}) /\
  AsyncEither_tapError (settled (Left 0 (VStr "e"))) rejecter (world_of [Left 0 (VStr "e")]) =
    (Normal (settled (Left 0 (VStr "e"))),
     {| heap := [Left 0 (VStr "e")];
        console := [mkCall console_error_m [VStr "An error occurred at tapError"; VStr "e"]] |}).
Proof.
  pose proof (C7_tap_swallows (Right 0 (VStr "v")) 0 (VStr "v") (VStr "v")
                thrower None None (world_of [Right 0 (VStr "v")])) as T.
  pose proof (C7_tap_swallows (Left 0 (VStr "e")) 0 (VStr "e") (VStr "e")
                rejecter None None (world_of [Left 0 (VStr "e")])) as U.
  destruct T as (_ & T & _).
  destruct (T (VStr "v") (world_of [Right 0 (VStr "v")]) eq_refl) as (T1 & _ & T3 & _).
  destruct U as (_ & _ & _ & _ & U & _).
  pose proof (U (VStr "e") (world_of [Left 0 (VStr "e")]) eq_refl) as U1.
  split; [exact T1 | split; [exact T3 | exact U1]].
Defined.

(** ** getOrElse and getErrorOrElse *)

Lemma async_getOrElse_spec (x : Either) (dflt : Default) (w : World) :
  AsyncEither_getOrElse (settled x) dflt w =
    match x, dflt with
    | Right _ value, _ => (Normal (resolve value), w)
    | Left _ _, Plain d => (Normal (resolve d), w)
    | Left _ _, Producer produce => settle produce w
    end.
Proof.
  unfold AsyncEither_getOrElse, async_promise, abind, await, call, lift, aret, settle.
  destruct x as [i e | i v]; simpl; [| reflexivity].
  destruct dflt as [d | produce]; [reflexivity |].
  destruct (produce w) as [[r | ex] w1]; reflexivity.
Qed.

Lemma async_getErrorOrElse_spec (x : Either) (dflt : Default) (w : World) :
  AsyncEither_getErrorOrElse (settled x) dflt w =
    match x, dflt with
    | Left _ error, _ => (Normal (resolve error), w)
    | Right _ _, Plain d => (Normal (resolve d), w)
    | Right _ _, Producer produce => settle produce w
    end.
Proof.
  unfold AsyncEither_getErrorOrElse, async_promise, abind, await, call, lift, aret, settle.
  destruct x as [i e | i v]; simpl; [reflexivity |].
  destruct dflt as [d | produce]; [reflexivity |].
  destruct (produce w) as [[r | ex] w1]; reflexivity.
Qed.

Example getErrorOrElse_computed :
  (a <- asyncRight (VNum 7) ;;
   AsyncEither_getErrorOrElse a (Producer (spy VNull ;;; ret (VStr "computed")))) w0
  = (Normal (Fulfilled (VStr "computed")),
     {| heap := [Right 0 (VNum 7)];
        console := [mkCall console_log_m [VStr "called"; VNull]] |}).
Proof. reflexivity. Qed.

Example getOrElse_lazy :
  (a <- asyncRight (VNum 7) ;;
   AsyncEither_getOrElse a (Producer (spy VNull ;;; ret (VStr "computed")))) w0
  = (Normal (Fulfilled (VNum 7)), world_of [Right 0 (VNum 7)]).
Proof. reflexivity. Qed.

(** C8: [right(v).getOrElse(d)] is [v] and [left(e).getOrElse(d)] is [d];
    [left(e).getErrorOrElse(d)] is [e] and [right(v).getErrorOrElse(d)] is
    [d]; the synchronous accessors are total functions that neither throw
    nor have an effect.  The AsyncEither versions resolve, once the wrapper
    has settled, with what the synchronous accessor gives; a producer
    default is run only in the branch that needs the default (on the other
    branch the world is untouched, whatever the producer is). *)
Theorem C8_getOrElse (x : Either) (i : nat) (v e d : Value)
    (produce : Js Value) (dflt : Default) (w : World) :
  (Either_getOrElse (Right i v) d = v /\
   Either_getOrElse (Left i e) d = d /\
   Either_getErrorOrElse (Left i e) d = e /\
   Either_getErrorOrElse (Right i v) d = d) /\
  (AsyncEither_getOrElse (settled x) (Plain d) w =
     (Normal (resolve (Either_getOrElse x d)), w) /\
   AsyncEither_getErrorOrElse (settled x) (Plain d) w =
     (Normal (resolve (Either_getErrorOrElse x d)), w)) /\
  (AsyncEither_getOrElse (settled (Right i v)) dflt w = (Normal (resolve v), w) /\
   AsyncEither_getErrorOrElse (settled (Left i e)) dflt w = (Normal (resolve e), w)) /\
  (AsyncEither_getOrElse (settled (Left i e)) (Producer produce) w = settle produce w /\
   AsyncEither_getErrorOrElse (settled (Right i v)) (Producer produce) w = settle produce w) /\
  (thenable v = false ->
     AsyncEither_getOrElse (settled (Right i v)) dflt w = (Normal (Fulfilled v), w)) /\
  (thenable e = false ->
     AsyncEither_getErrorOrElse (settled (Left i e)) dflt w = (Normal (Fulfilled e), w)) /\
  (thenable d = false ->
     AsyncEither_getOrElse (settled (Left i e)) (Plain d) w = (Normal (Fulfilled d), w) /\
     AsyncEither_getErrorOrElse (settled (Right i v)) (Plain d) w = (Normal (Fulfilled d), w) /\
     AsyncEither_getOrElse (settled (Left i e)) (Producer (ret d)) w = (Normal (Fulfilled d), w) /\
     AsyncEither_getErrorOrElse (settled (Right i v)) (Producer (ret d)) w =
       (Normal (Fulfilled d), w)).
Proof.
  rewrite !async_getOrElse_spec, !async_getErrorOrElse_spec.
  split; [repeat split |].
  split; [split; destruct x; reflexivity |].
  split; [split; destruct dflt; reflexivity |].
  split; [split; reflexivity |].
  split; [intros Hv; rewrite <- (resolve_plain _ Hv); destruct dflt; reflexivity |].
  split; [intros He; rewrite <- (resolve_plain _ He); destruct dflt; reflexivity |].
  intros Hd. unfold settle, ret. rewrite (resolve_plain _ Hd). repeat split.
Qed.

Lemma C8_getOrElse_witness :
  AsyncEither_getOrElse (settled (Right 0 (VNum 7))) (Producer (thrower VNull))
      (world_of [Right 0 (VNum 7)])
    = (Normal (Fulfilled (VNum 7)), world_of [Right 0 (VNum 7)]) /\
  AsyncEither_getErrorOrElse (settled (Left 0 (VStr "e"))) (Producer (thrower VNull))
      (world_of [Right 0 (VNum 7)])
    = (Normal (Fulfilled (VStr "e")), world_of [Right 0 (VNum 7)]) /\
  AsyncEither_getOrElse (settled (Left 0 (VStr "e"))) (Plain (VNum 1))
      (world_of [Right 0 (VNum 7)])
    = (Normal (Fulfilled (VNum 1)), world_of [Right 0 (VNum 7)]).
Proof.
  pose proof (C8_getOrElse (Right 0 (VNum 7)) 0 (VNum 7) (VStr "e") (VNum 1)
                (thrower VNull) (Producer (thrower VNull))
                (world_of [Right 0 (VNum 7)])) as T.
  destruct T as (_ & _ & _ & _ & T1 & T2 & T3).
  split; [exact (T1 eq_refl) | split; [exact (T2 eq_refl) |]].
  exact (proj1 (T3 eq_refl)).
Defined.

(** ** The constructor: normalisation and capture *)

Example tryCatch_resolved :
  AsyncEither_tryCatch (VPromise (Fulfilled (VStr "ok"))) w0
  = (Normal (settled (Right 0 (VStr "ok"))), world_of [Right 0 (VStr "ok")]).
Proof. reflexivity. Qed.

Example tryCatch_rejected :
  AsyncEither_tryCatch (VPromise (Rejected (VError (mkError Class_Error "boom" None)))) w0
  = (Normal (settled (Left 0 (VError (mkError Class_Error "boom" None)))),
     world_of [Left 0 (VError (mkError Class_Error "boom" None))]).
Proof. reflexivity. Qed.

(** C10: when the promise given to the constructor resolves to an Either
    instance, the wrapper settles to that very instance, not to a [Right]
    holding it; when it resolves to any other value [v], the wrapper
    settles to a new [Right] holding [v]; [tryCatch] and [fromPromise] are
    the constructor and do the same. *)
Theorem C10_constructor_normalizes (y : Either) (v : Value) (w : World)
    (Hv : instanceof_Either v = false) (Ht : thenable v = false) :
  (new_AsyncEither (VPromise (Fulfilled (VEither y))) w = (Normal (settled y), w) /\
   AsyncEither_tryCatch (VPromise (Fulfilled (VEither y))) w = (Normal (settled y), w) /\
   AsyncEither_fromPromise (VPromise (Fulfilled (VEither y))) w = (Normal (settled y), w) /\
   AsyncEither_fromEither y w = (Normal (settled y), w)) /\
  (new_AsyncEither (VPromise (Fulfilled v)) w =
     (Normal (settled (Right (next_oid w) v)), alloc (Right (next_oid w) v) w) /\
   AsyncEither_tryCatch (VPromise (Fulfilled v)) w =
     (Normal (settled (Right (next_oid w) v)), alloc (Right (next_oid w) v) w) /\
   AsyncEither_fromPromise (VPromise (Fulfilled v)) w =
     (Normal (settled (Right (next_oid w) v)), alloc (Right (next_oid w) v) w)).
Proof.
  unfold AsyncEither_fromPromise, AsyncEither_tryCatch, AsyncEither_fromEither.
  rewrite !new_AsyncEither_wrap. simpl. rewrite (resolve_plain _ Ht). simpl.
  rewrite Hv. repeat split.
Qed.

Lemma C10_constructor_normalizes_witness :
  new_AsyncEither (VPromise (Fulfilled (VEither (Left 0 (VStr "e")))))
      (world_of [Left 0 (VStr "e")])
    = (Normal (settled (Left 0 (VStr "e"))), world_of [Left 0 (VStr "e")]) /\
  new_AsyncEither (VPromise (Fulfilled (VStr "v"))) (world_of [Left 0 (VStr "e")])
    = (Normal (settled (Right 1 (VStr "v"))),
       world_of [Left 0 (VStr "e"); Right 1 (VStr "v")]).
Proof.
  pose proof (C10_constructor_normalizes (Left 0 (VStr "e")) (VStr "v")
                (world_of [Left 0 (VStr "e")]) eq_refl eq_refl) as T.
  split; [exact (proj1 (proj1 T)) | exact (proj1 (proj2 T))].
Defined.

(** C1: the handle of an AsyncEither is never rejected.  Whatever the
    constructor, [tryCatch] or [fromPromise] is given, and whatever [map]
    or [flatMap] is given as transformer, the wrapper is built and its
    handle is not rejected.  A promise rejecting with [e] gives a wrapper
    settled to a [Left] holding [e]; so does a transformer that throws [e]
    or returns a promise rejecting with [e]; and
    [tryCatch(p).then(x => x.unwrapError())] resolves to [e]. *)
Theorem C1_rejection_is_captured (input e v : Value) (i : nat) (this : AsyncEither)
    (fn : Value -> Js Value) (w : World) :
  (not_rejected (new_AsyncEither input w) /\
   not_rejected (AsyncEither_tryCatch input w) /\
   not_rejected (AsyncEither_fromPromise input w) /\
   not_rejected (AsyncEither_map this fn w) /\
   not_rejected (AsyncEither_flatMap this fn w)) /\
  (let captured := (Normal (settled (Left (next_oid w) e)), alloc (Left (next_oid w) e) w) in
   new_AsyncEither (VPromise (Rejected e)) w = captured /\
   AsyncEither_tryCatch (VPromise (Rejected e)) w = captured /\
   AsyncEither_fromPromise (VPromise (Rejected e)) w = captured /\
   Either_unwrapError (Left (next_oid w) e) = Normal e) /\
  (forall w1, fn v w = (Throw e, w1) \/ fn v w = (Normal (VPromise (Rejected e)), w1) ->
     let captured :=
       (Normal (settled (Left (next_oid w1) e)), alloc (Left (next_oid w1) e) w1) in
     AsyncEither_map (settled (Right i v)) fn w = captured /\
     AsyncEither_flatMap (settled (Right i v)) fn w = captured) /\
  (a <- AsyncEither_tryCatch (VPromise (Rejected e)) ;;
   AsyncEither_then a (Some call_unwrapError) None) w =
    (Normal (resolve e), alloc (Left (next_oid w) e) w).
Proof.
  split; [| split; [| split]].
  - repeat split; apply wraps_not_rejected;
      first [apply new_AsyncEither_wraps | apply chain_wraps].
  - repeat split.
  - intros w1 Hfn. cbv zeta. rewrite async_map_right, async_flatMap_right.
    destruct Hfn as [-> | ->]; split; reflexivity.
  - reflexivity.
Qed.

Lemma C1_rejection_is_captured_witness :
  AsyncEither_map (settled (Right 0 (VStr "boom"))) thrower (world_of [Right 0 (VStr "boom")])
    = (Normal (settled (Left 1 (VStr "boom"))),
       world_of [Right 0 (VStr "boom"); Left 1 (VStr "boom")]) /\
  AsyncEither_flatMap (settled (Right 0 (VStr "boom"))) rejecter
      (world_of [Right 0 (VStr "boom")])
    = (Normal (settled (Left 1 (VStr "boom"))),
       world_of [Right 0 (VStr "boom"); Left 1 (VStr "boom")]).
Proof.
  split.
  - exact (proj1 (proj1 (proj2 (proj2
      (C1_rejection_is_captured VNull (VStr "boom") (VStr "boom") 0 never_settles
         thrower (world_of [Right 0 (VStr "boom")]))))
      (world_of [Right 0 (VStr "boom")]) (or_introl eq_refl))).
  - exact (proj2 (proj1 (proj2 (proj2
      (C1_rejection_is_captured VNull (VStr "boom") (VStr "boom") 0 never_settles
         rejecter (world_of [Right 0 (VStr "boom")]))))
      (world_of [Right 0 (VStr "boom")]) (or_intror eq_refl))).
Defined.

(** * Object identity: which combinators allocate *)

Lemma extends_refl (w : World) : extends w w.
Proof. exists []. now rewrite app_nil_r. Qed.

Lemma extends_trans (w1 w2 w3 : World) : extends w1 w2 -> extends w2 w3 -> extends w1 w3.
Proof.
  intros [m1 H1] [m2 H2]. exists (m1 ++ m2)%list. now rewrite H2, H1, app_assoc.
Qed.

Lemma extends_alloc (x : Either) (w : World) : extends w (alloc x w).
Proof. now exists [x]. Qed.

Lemma extends_print (c : ConsoleCall) (w : World) : extends w (print c w).
Proof. exists []. simpl. now rewrite app_nil_r. Qed.

Lemma extends_next_oid (w w' : World) : extends w w' -> next_oid w <= next_oid w'.
Proof. intros [m H]. unfold next_oid. rewrite H, length_app. lia. Qed.

Lemma stored_allocated (w : World) (x : Either) : stored w x -> oid_of x < next_oid w.
Proof. intros H. apply nth_error_Some. unfold stored in H. congruence. Qed.

(** What is in the store stays in the store, as it is. *)
Lemma stored_extends (w w' : World) (x : Either) :
  stored w x -> extends w w' -> stored w' x.
Proof.
  intros Hx [m H]. unfold stored. rewrite H.
  rewrite nth_error_app1; [exact Hx | now apply stored_allocated].
Qed.

Lemma stored_alloc (x : Either) (w : World) :
  oid_of x = next_oid w -> stored (alloc x w) x.
Proof.
  intros H. unfold stored, alloc; simpl. rewrite H. unfold next_oid.
  rewrite nth_error_app2, Nat.sub_diag; [reflexivity | lia].
Qed.

Lemma extends_after_tap (label : string) (w : World) (r : Completion Value * World) :
  extends w (snd r) -> extends w (after_tap label r).
Proof.
  destruct r as [[a | ex] w1]; simpl; intros H; [exact H |].
  eapply extends_trans; [exact H |].
  eapply extends_trans; apply extends_print.
Qed.

Create HintDb store.
#[local] Hint Resolve extends_refl extends_alloc extends_print stored_alloc : store.

Section Frame.
Variables (w : World) (x : Either).
Hypothesis Hx : stored w x.

Lemma new_Left_produces_new (w1 : World) (e : Value) :
  extends w w1 -> produces_new w x (new_Left e w1).
Proof.
  intros He. pose proof (extends_next_oid _ _ He) as Hle.
  pose proof (stored_allocated _ _ Hx) as Hlt.
  unfold produces_new, new_Left; simpl. split; [| split; [| split]].
  - eapply extends_trans; eauto with store.
  - exact Hle.
  - lia.
  - auto with store.
Qed.

Lemma new_Right_produces_new (w1 : World) (v : Value) :
  extends w w1 -> produces_new w x (new_Right v w1).
Proof.
  intros He. pose proof (extends_next_oid _ _ He) as Hle.
  pose proof (stored_allocated _ _ Hx) as Hlt.
  unfold produces_new, new_Right; simpl. split; [| split; [| split]].
  - eapply extends_trans; eauto with store.
  - exact Hle.
  - lia.
  - auto with store.
Qed.
End Frame.

Lemma map_produces_new (w : World) (x : Either) (f : Value -> Js Value) :
  stored w x -> only_allocates f -> produces_new w x (Either_map x f w).
Proof.
  intros Hx Hf. destruct x as [i e | i v]; unfold Either_map.
  - apply new_Left_produces_new; [exact Hx | apply extends_refl].
  - unfold bind. pose proof (Hf v w) as M.
    destruct (f v w) as [[a | ex] w1]; simpl in M.
    + now apply new_Right_produces_new.
    + split; [exact M | exact I].
Qed.

Lemma mapError_produces_new (w : World) (x : Either) (f : Value -> Js Value) :
  stored w x -> only_allocates f -> produces_new w x (Either_mapError x f w).
Proof.
  intros Hx Hf. destruct x as [i e | i v]; unfold Either_mapError.
  - unfold bind. pose proof (Hf e w) as M.
    destruct (f e w) as [[a | ex] w1]; simpl in M.
    + now apply new_Left_produces_new.
    + split; [exact M | exact I].
  - apply new_Right_produces_new; [exact Hx | apply extends_refl].
Qed.

Lemma filter_produces_new (w : World) (x : Either) (p ef : Value -> Js Value) :
  stored w x -> only_allocates p -> only_allocates ef ->
  produces_new w x (Either_filter x p ef w).
Proof.
  intros Hx Hp Hef. destruct x as [i e | i v]; unfold Either_filter.
  - apply new_Left_produces_new; [exact Hx | apply extends_refl].
  - unfold bind. pose proof (Hp v w) as M.
    destruct (p v w) as [[keep | ex] w1]; simpl in M; [| split; [exact M | exact I]].
    destruct (truthy keep).
    + now apply new_Right_produces_new.
    + pose proof (Hef v w1) as N.
      destruct (ef v w1) as [[a | ex] w2]; simpl in N.
      * apply new_Left_produces_new; [exact Hx |]. eapply extends_trans; eassumption.
      * split; [eapply extends_trans; eassumption | exact I].
Qed.

Lemma flatMap_left_produces_new (w : World) (i : nat) (e : Value) (h : Value -> Js Either) :
  stored w (Left i e) -> produces_new w (Left i e) (Either_flatMap (Left i e) h w).
Proof. intros Hx. apply new_Left_produces_new; [exact Hx | apply extends_refl]. Qed.

Lemma tap_returns_receiver (w : World) (x : Either) (f : Value -> Js Value) :
  only_allocates f -> returns_receiver w x (Either_tap x f w).
Proof.
  intros Hf. split; [| apply tap_returns_this].
  destruct x as [i e | i v]; [apply extends_refl |].
  rewrite tap_right. simpl. apply extends_after_tap. apply Hf.
Qed.

Lemma tapError_returns_receiver (w : World) (x : Either) (f : Value -> Js Value) :
  only_allocates f -> returns_receiver w x (Either_tapError x f w).
Proof.
  intros Hf. split; [| apply tapError_returns_this].
  destruct x as [i e | i v]; [| apply extends_refl].
  rewrite tapError_left. simpl. apply extends_after_tap. apply Hf.
Qed.

Lemma tapBoth_returns_receiver (w : World) (x : Either)
    (rf lf : option (Value -> Js Value)) :
  (forall f, rf = Some f \/ lf = Some f -> only_allocates f) ->
  returns_receiver w x (Either_tapBoth x rf lf w).
Proof.
  intros H. destruct x as [i e | i v]; unfold Either_tapBoth.
  - destruct lf as [f |]; [apply tapError_returns_receiver; auto |].
    split; [apply extends_refl | reflexivity].
  - destruct rf as [f |]; [apply tap_returns_receiver; auto |].
    split; [apply extends_refl | reflexivity].
Qed.

Lemma produces_new_keeps (w : World) (x : Either) (r : Completion Either * World) :
  stored w x -> produces_new w x r -> stored (snd r) x.
Proof. intros Hx [He _]. exact (stored_extends _ _ _ Hx He). Qed.

Lemma returns_receiver_keeps (w : World) (x : Either) (r : Completion Either * World) :
  stored w x -> returns_receiver w x r -> stored (snd r) x.
Proof. intros Hx [He _]. exact (stored_extends _ _ _ Hx He). Qed.

Lemma spy_only_allocates : only_allocates spy.
Proof. intros a w. apply extends_print. Qed.

Lemma right_only_allocates : only_allocates right.
Proof. intros a w. apply extends_alloc. Qed.

Example tap_left_is_identity :
  Either_tap (Left 0 (VStr "e")) spy (world_of [Left 0 (VStr "e")])
  = (Normal (Left 0 (VStr "e")), world_of [Left 0 (VStr "e")]).
Proof. reflexivity. Qed.

Example flatMap_can_return_receiver :
  Either_flatMap (Right 0 (VStr "v")) (fun _ => ret (Right 0 (VStr "v")))
    (world_of [Right 0 (VStr "v")])
  = (Normal (Right 0 (VStr "v")), world_of [Right 0 (VStr "v")]).
Proof. reflexivity. Qed.

(** C9, as stated, fails on the tap family: [tap] on a [Left] returns the
    receiver itself, not a new instance. *)
Lemma C9_tap_returns_this :
  stored (world_of [Left 0 (VStr "e")]) (Left 0 (VStr "e")) /\
  Either_tap (Left 0 (VStr "e")) spy (world_of [Left 0 (VStr "e")])
    = (Normal (Left 0 (VStr "e")), world_of [Left 0 (VStr "e")]) /\
  ~ returns_new_instance (fun x => Either_tap x spy).
Proof.
  assert (A : stored (world_of [Left 0 (VStr "e")]) (Left 0 (VStr "e"))) by reflexivity.
  split; [exact A | split; [reflexivity |]].
  intros H.
  apply (H (Left 0 (VStr "e")) (world_of [Left 0 (VStr "e")])
           (Left 0 (VStr "e")) (world_of [Left 0 (VStr "e")]) A eq_refl).
  reflexivity.
Qed.

(** C9, amended: [map], [mapError] and [filter], on either variant, and
    [flatMap] on a [Left] return a newly allocated instance, distinct from
    the receiver and from every instance that existed before the call;
    [flatMap] on a [Right] returns what its mapper returns; [tap],
    [tapError] and [tapBoth] return the receiver itself.  No combinator
    changes the receiver or any other existing instance: after the call
    the receiver is in the store as it was. *)
Theorem C9_new_or_same_instance (x : Either) (f g : Value -> Js Value)
    (h : Value -> Js Either) (rf lf : option (Value -> Js Value)) (w : World)
    (Hx : stored w x)
    (Hf : only_allocates f) (Hg : only_allocates g) (Hh : only_allocates h)
    (Hb : forall k, rf = Some k \/ lf = Some k -> only_allocates k) :
  (produces_new w x (Either_map x f w) /\
   produces_new w x (Either_mapError x f w) /\
   produces_new w x (Either_filter x f g w)) /\
  (forall i e, x = Left i e ->
     produces_new w x (Either_flatMap x h w) /\
     fst (Either_map x f w) = Normal (Left (next_oid w) e) /\
     fst (Either_filter x f g w) = Normal (Left (next_oid w) e) /\
     fst (Either_flatMap x h w) = Normal (Left (next_oid w) e)) /\
  (forall i v, x = Right i v ->
     Either_flatMap x h w = h v w /\
     fst (Either_mapError x f w) = Normal (Right (next_oid w) v) /\
     (forall a w1, f v w = (Normal a, w1) ->
        fst (Either_map x f w) = Normal (Right (next_oid w1) a))) /\
  (returns_receiver w x (Either_tap x f w) /\
   returns_receiver w x (Either_tapError x f w) /\
   returns_receiver w x (Either_tapBoth x rf lf w)) /\
  (stored (snd (Either_map x f w)) x /\
   stored (snd (Either_mapError x f w)) x /\
   stored (snd (Either_filter x f g w)) x /\
   stored (snd (Either_flatMap x h w)) x /\
   stored (snd (Either_tap x f w)) x /\
   stored (snd (Either_tapError x f w)) x /\
   stored (snd (Either_tapBoth x rf lf w)) x).
Proof.
  pose proof (map_produces_new w x f Hx Hf) as M.
  pose proof (mapError_produces_new w x f Hx Hf) as ME.
  pose proof (filter_produces_new w x f g Hx Hf Hg) as F.
  pose proof (tap_returns_receiver w x f Hf) as T.
  pose proof (tapError_returns_receiver w x f Hf) as TE.
  pose proof (tapBoth_returns_receiver w x rf lf Hb) as TB.
  split; [auto |]. split; [| split; [| split; [auto |]]].
  - intros i e ->. split; [now apply flatMap_left_produces_new |]. repeat split.
  - intros i v ->. split; [reflexivity |]. split; [reflexivity |].
    intros a w1 Ha. unfold Either_map, bind. now rewrite Ha.
  - repeat split; eauto using produces_new_keeps, returns_receiver_keeps.
    destruct x as [i e | i v].
    + apply (produces_new_keeps w); [exact Hx | now apply flatMap_left_produces_new].
    + simpl. exact (stored_extends _ _ _ Hx (Hh v w)).
Qed.

Lemma C9_new_or_same_instance_witness :
  produces_new (world_of [Right 0 (VNum 2)]) (Right 0 (VNum 2))
    (Either_map (Right 0 (VNum 2)) spy (world_of [Right 0 (VNum 2)])) /\
  Either_map (Right 0 (VNum 2)) spy (world_of [Right 0 (VNum 2)]) =
    (Normal (Right 1 VUndefined),
     {| heap := [Right 0 (VNum 2); Right 1 VUndefined];
        console := [mkCall console_log_m [VStr "called"; VNum 2]] |}).
Proof.
  assert (A : stored (world_of [Right 0 (VNum 2)]) (Right 0 (VNum 2))) by reflexivity.
  assert (S : only_allocates spy).
  { intros a w. exists []. simpl. now rewrite app_nil_r. }
  assert (R : only_allocates right).
  { intros a w. now exists [Right (next_oid w) a]. }
  assert (B : forall k, @None (Value -> Js Value) = Some k \/ @None (Value -> Js Value) = Some k
                        -> only_allocates k).
  { intros k [H | H]; discriminate. }
  split; [| reflexivity].
  exact (proj1 (proj1 (C9_new_or_same_instance (Right 0 (VNum 2)) spy spy
                         right None None (world_of [Right 0 (VNum 2)]) A S S R B))).
Defined.

(** * Further properties of the synchronous Either *)

Lemma same_outcome_refl (r : Completion Either * World) : same_outcome r r.
Proof. split; [reflexivity |]. destruct (fst r); reflexivity. Qed.

(** ** mapError: the functor on the error channel *)

Lemma mapError_composition (x : Either) (f g : Value -> Js Value) (w : World) :
  allocation_blind g ->
  same_outcome
    ((y <- Either_mapError x f ;; Either_mapError y g) w)
    (Either_mapError x (fun e => a <- f e ;; g a) w).
Proof.
  intros Hg. destruct x as [i e | i v].
  - unfold same_outcome, Either_mapError, bind, new_Left.
    destruct (f e w) as [[a | ex] w1]; simpl.
    + destruct (Hg a (alloc (Left (next_oid w1) a) w1) w1 eq_refl) as [Hc Hr].
      destruct (g a (alloc (Left (next_oid w1) a) w1)) as [[b1 | e1] u1],
               (g a w1) as [[b2 | e2] u2];
        simpl in *; try contradiction; split; trivial.
      unfold value_equal; simpl. now rewrite Hr.
    + split; reflexivity.
  - split; reflexivity.
Qed.

(** X1: [mapError] is a functor on the error channel, up to value
    equality, and leaves a [Right] alone: mapping [e => e] gives an Either
    value-equal to the receiver; mapping [f] then [g] agrees with mapping
    [e => g(f(e))]; on a [Right] the function is not called and the result
    is a new [Right] with the same value. *)
Theorem mapError_functor_laws (x : Either) (f g : Value -> Js Value) (w : World)
    (Hg : allocation_blind g) :
  (exists y w', Either_mapError x (fun e => ret e) w = (Normal y, w') /\ value_equal y x) /\
  same_outcome
    ((y <- Either_mapError x f ;; Either_mapError y g) w)
    (Either_mapError x (fun e => a <- f e ;; g a) w) /\
  (forall i v, x = Right i v ->
     Either_mapError x f w =
       (Normal (Right (next_oid w) v), alloc (Right (next_oid w) v) w)).
Proof.
  split; [| split].
  - destruct x; eexists; eexists; split; reflexivity.
  - now apply mapError_composition.
  - intros i v ->. reflexivity.
Qed.

Lemma mapError_functor_laws_witness :
  same_outcome
    ((y <- Either_mapError (Left 0 (VNum 5)) spy ;; Either_mapError y boxer)
       (world_of [Left 0 (VNum 5)]))
    (Either_mapError (Left 0 (VNum 5)) (fun e => a <- spy e ;; boxer a)
       (world_of [Left 0 (VNum 5)])).
Proof.
  assert (Hg : allocation_blind boxer).
  { intros a w1 w2 Hc. split; [exact Hc | reflexivity]. }
  exact (proj1 (proj2 (mapError_functor_laws (Left 0 (VNum 5)) spy boxer
                         (world_of [Left 0 (VNum 5)]) Hg))).
Defined.

(** ** flatMap: the monad laws *)

(** X2: [flatMap] with [right] as unit satisfies the monad laws.
    [x.flatMap(right)] is value-equal to [x]; chaining two [flatMap]s
    agrees with one [flatMap] of the chained function, whatever the two
    functions do; and [x.map(f)] is [x.flatMap(v => right(f(v)))]. *)
Theorem flatMap_monad_laws (x : Either) (f : Value -> Js Value)
    (h k : Value -> Js Either) (w : World) :
  (exists y w', Either_flatMap x right w = (Normal y, w') /\ value_equal y x) /\
  same_outcome
    ((y <- Either_flatMap x h ;; Either_flatMap y k) w)
    (Either_flatMap x (fun v => y <- h v ;; Either_flatMap y k) w) /\
  Either_map x f w = Either_flatMap x (fun v => a <- f v ;; right a) w.
Proof.
  split; [| split].
  - destruct x; eexists; eexists; split; reflexivity.
  - destruct x as [i e | i v].
    + split; reflexivity.
    + apply same_outcome_refl.
  - destruct x; reflexivity.
Qed.

(** ** The variant predicates and the throwing accessors *)

(** X3: an Either is exactly one of the two variants, and the predicates
    tell which accessor is safe: on a [Right], [unwrap] returns what
    [getOrElse] returns and [unwrapError] throws; on a [Left],
    [unwrapError] returns what [getErrorOrElse] returns and [unwrap]
    throws.  What is thrown is always an [EitherUnwrapError] carrying the
    default code. *)
Theorem variant_decides_accessors (x : Either) (d : Value) :
  Either_isLeft x = negb (Either_isRight x) /\
  (Either_isRight x = true ->
     Either_unwrap x = Normal (Either_getOrElse x d) /\
     Either_getErrorOrElse x d = d /\
     exists msg, Either_unwrapError x =
       Throw (VError (mkError Class_EitherUnwrapError msg (Some DEFAULT_CODE)))) /\
  (Either_isLeft x = true ->
     Either_unwrapError x = Normal (Either_getErrorOrElse x d) /\
     Either_getOrElse x d = d /\
     exists msg, Either_unwrap x =
       Throw (VError (mkError Class_EitherUnwrapError msg (Some DEFAULT_CODE)))).
Proof.
  destruct x as [i e | i v]; simpl; (split; [reflexivity |]); split; intros H;
    try discriminate; repeat split; eexists; reflexivity.
Qed.

Lemma variant_decides_accessors_witness :
  Either_unwrap (Right 0 (VNum 1)) = Normal (Either_getOrElse (Right 0 (VNum 1)) VNull) /\
  Either_unwrapError (Left 0 (VStr "e")) =
    Normal (Either_getErrorOrElse (Left 0 (VStr "e")) VNull).
Proof.
  split.
  - exact (proj1 (proj1 (proj2 (variant_decides_accessors (Right 0 (VNum 1)) VNull)) eq_refl)).
  - exact (proj1 (proj2 (proj2 (variant_decides_accessors (Left 0 (VStr "e")) VNull)) eq_refl)).
Defined.

(** ** toResult *)

(** X4: [toResult] keeps the variant and the payload and drops nothing
    but the identity: its [success] field is [isRight], two Eithers with
    the same result object are value-equal, and they are the same
    reference when they also have the same identity. *)
Theorem toResult_faithful (x y : Either) :
  success (Either_toResult x) = Either_isRight x /\
  (Either_toResult x = Either_toResult y -> value_equal x y) /\
  (Either_toResult x = Either_toResult y -> oid_of x = oid_of y -> x = y) /\
  (Either_isRight x = true -> Either_toResult x = Success (Either_getOrElse x VNull)) /\
  (Either_isLeft x = true -> Either_toResult x = Failure (Either_getErrorOrElse x VNull)).
Proof.
  destruct x as [i e | i v], y as [j e' | j v']; simpl;
    (split; [reflexivity |]); (split; [| split; [| split]]);
    intros H; try discriminate; try reflexivity;
    try (inversion H; subst; reflexivity);
    try (intros Ho; inversion H; subst; reflexivity).
Qed.

Lemma toResult_faithful_witness :
  value_equal (Right 0 (VNum 1)) (Right 3 (VNum 1)).
Proof.
  exact (proj1 (proj2 (toResult_faithful (Right 0 (VNum 1)) (Right 3 (VNum 1)))) eq_refl).
Defined.

(** ** filter with a test that has no effect *)

Lemma filter_test_right (i : nat) (v : Value) (p : Value -> bool)
    (ef : Value -> Js Value) (w : World) :
  Either_filter (Right i v) (test p) ef w =
    if p v then new_Right v w else (e <- ef v ;; new_Left e) w.
Proof. unfold Either_filter, test, bind, ret. simpl. destruct (p v); reflexivity. Qed.

(** X5: with a predicate that is a plain boolean test, [filter] is
    idempotent up to value equality (filtering the result again changes
    nothing, and runs the error factory no second time), and a test that
    accepts the value gives back an Either value-equal to the receiver
    without running the error factory. *)
Theorem filter_idempotent (x : Either) (p : Value -> bool)
    (ef : Value -> Js Value) (w : World) :
  same_outcome
    ((y <- Either_filter x (test p) ef ;; Either_filter y (test p) ef) w)
    (Either_filter x (test p) ef w) /\
  ((forall i v, x = Right i v -> p v = true) ->
     exists y, Either_filter x (test p) ef w = (Normal y, alloc y w) /\ value_equal y x).
Proof.
  split.
  - destruct x as [i e | i v].
    + split; reflexivity.
    + unfold bind. rewrite filter_test_right.
      destruct (p v) eqn:E.
      * unfold new_Right. cbv zeta. rewrite filter_test_right, E. split; reflexivity.
      * unfold bind. destruct (ef v w) as [[e | ex] w1]; split; reflexivity.
  - intros H. destruct x as [i e | i v].
    + eexists. split; reflexivity.
    + rewrite filter_test_right, (H i v eq_refl). eexists. split; reflexivity.
Qed.

Lemma filter_idempotent_witness :
  exists y,
    Either_filter (Right 0 (VNum 3)) (test (fun _ => true)) thrower
      (world_of [Right 0 (VNum 3)])
      = (Normal y, alloc y (world_of [Right 0 (VNum 3)])) /\
    value_equal y (Right 0 (VNum 3)).
Proof.
  exact (proj2 (filter_idempotent (Right 0 (VNum 3)) (fun _ => true) thrower
                  (world_of [Right 0 (VNum 3)]))
           (fun _ _ _ => eq_refl)).
Defined.

(** ** Exceptions of the callbacks *)

Example map_thrower_propagates :
  Either_map (Right 0 (VStr "boom")) thrower (world_of [Right 0 (VStr "boom")])
  = (Throw (VStr "boom"), world_of [Right 0 (VStr "boom")]).
Proof. reflexivity. Qed.

(** X6: unlike the tap family, [map], [mapError], [flatMap] and [filter]
    do not catch: when the callback they run throws, the combinator throws
    the same exception, returns no Either and allocates none (the world is
    the one the callback left).  The same holds when the error factory of
    [filter] throws after the predicate refused the value. *)
Theorem callbacks_exceptions_propagate (i : nat) (v ex : Value)
    (f ef : Value -> Js Value) (h : Value -> Js Either) (w w1 : World) :
  (f v w = (Throw ex, w1) ->
     Either_map (Right i v) f w = (Throw ex, w1) /\
     Either_mapError (Left i v) f w = (Throw ex, w1) /\
     Either_filter (Right i v) f ef w = (Throw ex, w1)) /\
  (h v w = (Throw ex, w1) -> Either_flatMap (Right i v) h w = (Throw ex, w1)) /\
  (forall keep w2, f v w = (Normal keep, w2) -> truthy keep = false ->
     ef v w2 = (Throw ex, w1) ->
     Either_filter (Right i v) f ef w = (Throw ex, w1)).
Proof.
  split; [| split].
  - intros H. unfold Either_map, Either_mapError, Either_filter, bind.
    rewrite H. repeat split.
  - intros H. exact H.
  - intros keep w2 Hp Hk He. rewrite (filter_right _ _ _ _ _ _ _ Hp), Hk, He.
    reflexivity.
Qed.

Lemma callbacks_exceptions_propagate_witness :
  Either_map (Right 0 (VStr "boom")) thrower (world_of [Right 0 (VStr "boom")])
    = (Throw (VStr "boom"), world_of [Right 0 (VStr "boom")]) /\
  Either_flatMap (Right 0 (VStr "boom")) (fun x => throw x) (world_of [Right 0 (VStr "boom")])
    = (Throw (VStr "boom"), world_of [Right 0 (VStr "boom")]) /\
  Either_filter (Right 0 (VStr "boom")) (test (fun _ => false)) thrower
      (world_of [Right 0 (VStr "boom")])
    = (Throw (VStr "boom"), world_of [Right 0 (VStr "boom")]).
Proof.
  pose (W := world_of [Right 0 (VStr "boom")]).
  split; [| split].
  - exact (proj1 (proj1 (callbacks_exceptions_propagate 0 (VStr "boom") (VStr "boom")
                           thrower thrower (fun x => throw x) W W) eq_refl)).
  - exact (proj1 (proj2 (callbacks_exceptions_propagate 0 (VStr "boom") (VStr "boom")
                           thrower thrower (fun x => throw x) W W)) eq_refl).
  - exact (proj2 (proj2 (callbacks_exceptions_propagate 0 (VStr "boom") (VStr "boom")
                           (test (fun _ => false)) thrower (fun x => throw x) W W))
             (VBool false) W eq_refl eq_refl eq_refl).
Defined.

(** ** tapBoth picks one callback *)

(** X7: [tapBoth] is [tap] with the first callback on a [Right] and
    [tapError] with the second on a [Left]; the callback of the other
    variant is never called, and when the callback of the receiver's
    variant is [null] nothing happens at all.  A callback that returns is
    run exactly once, on the payload, and its result is dropped. *)
Theorem tapBoth_dispatch (i : nat) (v e : Value)
    (f : Value -> Js Value) (rf lf : option (Value -> Js Value)) (w : World) :
  (Either_tapBoth (Right i v) (Some f) lf w = Either_tap (Right i v) f w /\
   Either_tapBoth (Left i e) rf (Some f) w = Either_tapError (Left i e) f w) /\
  (Either_tapBoth (Right i v) None lf w = (Normal (Right i v), w) /\
   Either_tapBoth (Left i e) rf None w = (Normal (Left i e), w)) /\
  (Either_tap (Left i e) f w = (Normal (Left i e), w) /\
   Either_tapError (Right i v) f w = (Normal (Right i v), w)) /\
  (forall r w1, f v w = (Normal r, w1) ->
     Either_tap (Right i v) f w = (Normal (Right i v), w1)) /\
  (forall r w1, f e w = (Normal r, w1) ->
     Either_tapError (Left i e) f w = (Normal (Left i e), w1)).
Proof.
  repeat split.
  - intros r w1 H. now rewrite tap_right, H.
  - intros r w1 H. now rewrite tapError_left, H.
Qed.

Lemma tapBoth_dispatch_witness :
  Either_tap (Right 0 (VNum 2)) spy (world_of [Right 0 (VNum 2)]) =
    (Normal (Right 0 (VNum 2)),
     print (mkCall console_log_m [VStr "called"; VNum 2]) (world_of [Right 0 (VNum 2)])).
Proof.
  exact (proj1 (proj2 (proj2 (proj2
    (tapBoth_dispatch 0 (VNum 2) VNull spy None None (world_of [Right 0 (VNum 2)]))))) 
    VUndefined _ eq_refl).
Defined.

(** * Further properties of AsyncEither *)

(** ** mapError and recover *)

Example asyncLeft_mapError_length :
  (a <- asyncLeft (VStr "oops") ;;
   AsyncEither_mapError a (fun e => ret (match e with
                                         | VStr s => VNum (Z.of_nat (String.length s))
                                         | _ => VNull
                                         end))) w0
  = (Normal (settled (Left 1 (VNum 4))), world_of [Left 0 (VStr "oops"); Left 1 (VNum 4)]).
Proof. reflexivity. Qed.

(** X8: the asynchronous [mapError].  On a wrapper settled to a [Right]
    the function is not called and the wrapper settles to a new [Right]
    with the same value.  On one settled to a [Left] the function is
    called on the error and what it returns is awaited: the result is a
    new [Left] holding the awaited value; when the function throws, or
    its promise rejects, the new [Left] holds that failure instead; when
    its promise never settles, neither does the wrapper. *)
Theorem async_mapError_spec (i : nat) (v e : Value) (fn : Value -> Js Value) (w : World) :
  AsyncEither_mapError (settled (Right i v)) fn w =
    (Normal (settled (Right (next_oid w) v)), alloc (Right (next_oid w) v) w) /\
  AsyncEither_mapError (settled (Left i e)) fn w =
    match fn e w with
    | (Normal pending, w1) =>
        match resolve pending with
        | Fulfilled mappedError => captured mappedError w1
        | Rejected reason => captured reason w1
        | Pending => (Normal never_settles, w1)
        end
    | (Throw ex, w1) => captured ex w1
    end.
Proof.
  split.
  - unfold AsyncEither_mapError, settled. rewrite chain_async. reflexivity.
  - unfold AsyncEither_mapError, settled, captured. rewrite chain_async. run_async.
    destruct (fn e w) as [[pending | ex] w1]; [| reflexivity].
    destruct (resolve pending) as [m | r |]; reflexivity.
Qed.

(** X9: [recover].  On a wrapper settled to a [Right] the function is
    not called and the wrapper settles to a new [Right] with the same
    value.  On one settled to a [Left] the function receives the Either
    itself, not its error, and the wrapper is what the constructor makes
    of the function's result: an AsyncEither, a promise or an Either is
    adopted, any other value ends up in a [Right]; when the function
    throws, the exception ends up in a [Left]. *)
Theorem async_recover_spec (i : nat) (v e : Value) (fn : Value -> Js Value) (w : World) :
  AsyncEither_recover (settled (Right i v)) fn w =
    (Normal (settled (Right (next_oid w) v)), alloc (Right (next_oid w) v) w) /\
  AsyncEither_recover (settled (Left i e)) fn w =
    match fn (VEither (Left i e)) w with
    | (Normal result, w1) => new_AsyncEither result w1
    | (Throw ex, w1) => captured ex w1
    end.
Proof.
  split.
  - unfold AsyncEither_recover, settled. rewrite chain_async. reflexivity.
  - unfold AsyncEither_recover, settled, captured. rewrite chain_async. run_async.
    destruct (fn (VEither (Left i e)) w) as [[pending | ex] w1]; [| reflexivity].
    rewrite new_AsyncEither_wrap.
    destruct (resolve pending) as [m | r |] eqn:E; try reflexivity.
    pose proof (proj1 resolve_not_thenable _ _ E) as T.
    destruct m; simpl in T; try discriminate; simpl; reflexivity.
Qed.

Example recover_with_plain_value :
  AsyncEither_recover (settled (Left 0 (VStr "e"))) (fun _ => ret (VNum 42))
    (world_of [Left 0 (VStr "e")])
  = (Normal (settled (Right 1 (VNum 42))), world_of [Left 0 (VStr "e"); Right 1 (VNum 42)]).
Proof. reflexivity. Qed.

(** ** flatMap and the constructor *)

(** X10: on a wrapper settled to [Right(v)], [flatMap(fn)] is the
    constructor applied to [fn(v)], whatever [fn] returns: a promise that
    rejects gives a [Left], a value that is no Either gives a [Right]
    holding it; and when [fn] throws, the exception is captured in a
    [Left]. *)
Theorem async_flatMap_is_constructor (i : nat) (v : Value) (fn : Value -> Js Value)
    (w : World) :
  AsyncEither_flatMap (settled (Right i v)) fn w =
    match fn v w with
    | (Normal result, w1) => new_AsyncEither result w1
    | (Throw ex, w1) => captured ex w1
    end.
Proof.
  rewrite async_flatMap_right.
  destruct (fn v w) as [[result | ex] w1]; [| reflexivity].
  now rewrite new_AsyncEither_wrap.
Qed.

(** ** The asynchronous combinators against the synchronous ones *)

Lemma async_filter_left (i : nat) (e : Value) (p ef : Value -> Js Value) (w : World) :
  AsyncEither_filter (settled (Left i e)) p ef w = captured e w.
Proof. unfold AsyncEither_filter, settled. rewrite chain_async. reflexivity. Qed.

Lemma async_filter_right (i : nat) (v : Value) (p ef : Value -> Js Value) (w : World) :
  AsyncEither_filter (settled (Right i v)) p ef w =
    match p v w with
    | (Normal pending, w1) =>
        match resolve pending with
        | Fulfilled predicateResult =>
            if truthy predicateResult then
              (Normal (settled (Right (next_oid w1) v)), alloc (Right (next_oid w1) v) w1)
            else
              match ef v w1 with
              | (Normal e, w2) => captured e w2
              | (Throw ex, w2) => captured ex w2
              end
        | Rejected reason => captured reason w1
        | Pending => (Normal never_settles, w1)
        end
    | (Throw ex, w1) => captured ex w1
    end.
Proof.
  unfold AsyncEither_filter, settled, captured. rewrite chain_async. run_async.
  destruct (p v w) as [[pending | ex] w1]; [| reflexivity].
  destruct (resolve pending) as [m | r |]; try reflexivity.
  destruct (truthy m); [reflexivity |].
  destruct (ef v w1) as [[e | ex] w2]; reflexivity.
Qed.

(** X11: the asynchronous [map] and [filter] are the synchronous ones
    with the exception captured.  When the callback returns no thenable,
    the wrapper settles to the very instance the synchronous combinator
    returns, in the same world; where the synchronous combinator throws,
    the wrapper settles to a new [Left] holding the exception. *)
Theorem async_lifts_sync (x : Either) (f ef : Value -> Js Value) (w : World)
    (Hf : forall a b w1, f a w = (Normal b, w1) -> thenable b = false) :
  AsyncEither_map (settled x) f w = lifted (Either_map x f w) /\
  AsyncEither_filter (settled x) f ef w = lifted (Either_filter x f ef w).
Proof.
  destruct x as [i e | i v].
  - split; [apply async_map_left | apply async_filter_left].
  - rewrite async_map_right, async_filter_right.
    unfold Either_map, Either_filter, bind, lifted, captured.
    pose proof (Hf v) as H.
    destruct (f v w) as [[b | ex] w1]; [| split; reflexivity].
    rewrite (resolve_plain _ (H b w1 eq_refl)). split; [reflexivity |].
    destruct (truthy b); [reflexivity |].
    destruct (ef v w1) as [[e | ex] w2]; reflexivity.
Qed.

Lemma async_lifts_sync_witness :
  AsyncEither_map (settled (Right 0 (VNum 2))) spy (world_of [Right 0 (VNum 2)])
    = lifted (Either_map (Right 0 (VNum 2)) spy (world_of [Right 0 (VNum 2)])) /\
  lifted (Either_map (Right 0 (VNum 2)) spy (world_of [Right 0 (VNum 2)]))
    = (Normal (settled (Right 1 VUndefined)),
       {| heap := [Right 0 (VNum 2); Right 1 VUndefined];
          console := [mkCall console_log_m [VStr "called"; VNum 2]] |}).
Proof.
  split; [| reflexivity].
  refine (proj1 (async_lifts_sync (Right 0 (VNum 2)) spy spy (world_of [Right 0 (VNum 2)]) _)).
  intros a b w1 H. inversion H. reflexivity.
Defined.

(** X12: an asynchronous predicate.  When the predicate of [filter]
    returns a promise, the promise is awaited: fulfilled with a true value
    it keeps the [Right], fulfilled with a false one it gives a [Left]
    holding what the error factory returns (not awaited), and when it
    rejects, the wrapper settles to a [Left] holding the reason and the
    error factory is not called. *)
Theorem async_filter_awaits_predicate (i : nat) (v : Value) (b : bool) (reason : Value)
    (p ef : Value -> Js Value) (w w1 : World) :
  (p v w = (Normal (VPromise (Fulfilled (VBool b))), w1) ->
     AsyncEither_filter (settled (Right i v)) p ef w =
       if b then (Normal (settled (Right (next_oid w1) v)), alloc (Right (next_oid w1) v) w1)
       else match ef v w1 with
            | (Normal e, w2) => captured e w2
            | (Throw ex, w2) => captured ex w2
            end) /\
  (p v w = (Normal (VPromise (Rejected reason)), w1) ->
     AsyncEither_filter (settled (Right i v)) p ef w = captured reason w1).
Proof.
  split; intros H; rewrite async_filter_right, H; simpl; [destruct b |]; reflexivity.
Qed.

Lemma async_filter_awaits_predicate_witness :
  AsyncEither_filter (settled (Right 0 (VNum 2)))
      (fun _ => ret (VPromise (Fulfilled (VBool false)))) rejecter
      (world_of [Right 0 (VNum 2)])
    = (Normal (settled (Left 1 (VPromise (Rejected (VNum 2))))),
       world_of [Right 0 (VNum 2); Left 1 (VPromise (Rejected (VNum 2)))]) /\
  AsyncEither_filter (settled (Right 0 (VNum 2))) rejecter spy (world_of [Right 0 (VNum 2)])
    = (Normal (settled (Left 1 (VNum 2))), world_of [Right 0 (VNum 2); Left 1 (VNum 2)]).
Proof.
  split.
  - exact (proj1 (async_filter_awaits_predicate 0 (VNum 2) false VNull
                    (fun _ => ret (VPromise (Fulfilled (VBool false)))) rejecter
                    (world_of [Right 0 (VNum 2)]) (world_of [Right 0 (VNum 2)])) eq_refl).
  - exact (proj2 (async_filter_awaits_predicate 0 (VNum 2) false (VNum 2)
                    rejecter spy
                    (world_of [Right 0 (VNum 2)]) (world_of [Right 0 (VNum 2)])) eq_refl).
Defined.

(** ** The invariant of the handle *)

Lemma tapBoth_builds_wrapper (this : AsyncEither)
    (rf lf : option (Value -> Js Value)) (w : World) :
  builds_wrapper (AsyncEither_tapBoth this rf lf w).
Proof.
  unfold builds_wrapper, AsyncEither_tapBoth, bind.
  match goal with
  | |- context [Promise_then ?p ?f ?g w] =>
      destruct (Promise_then_returns p f g w) as (q & w1 & E)
  end.
  rewrite E. apply new_AsyncEither_wraps.
Qed.

(** X13: every way of building an AsyncEither keeps the invariant of its
    handle.  Whatever wrapper they are called on and whatever callbacks
    they are given, [mapError], [recover], [filter], [tap], [tapError]
    and [tapBoth], like [fromEither], [asyncRight] and [asyncLeft],
    return a wrapper (they do not throw) whose handle is fulfilled with an
    Either or never settles: it is never rejected and never holds
    anything but an Either. *)
Theorem combinators_keep_handle_invariant (this : AsyncEither) (either : Either)
    (x : Value) (f g : Value -> Js Value) (rf lf : option (Value -> Js Value))
    (w : World) :
  builds_wrapper (AsyncEither_mapError this f w) /\
  builds_wrapper (AsyncEither_recover this f w) /\
  builds_wrapper (AsyncEither_filter this f g w) /\
  builds_wrapper (AsyncEither_tap this f w) /\
  builds_wrapper (AsyncEither_tapError this f w) /\
  builds_wrapper (AsyncEither_tapBoth this rf lf w) /\
  builds_wrapper (AsyncEither_fromEither either w) /\
  builds_wrapper (asyncRight x w) /\
  builds_wrapper (asyncLeft x w).
Proof.
  repeat split; try apply chain_wraps; try apply tapBoth_builds_wrapper;
    try apply new_AsyncEither_wraps;
    unfold asyncRight, asyncLeft, bind; simpl; apply new_AsyncEither_wraps.
Qed.

(** ** A wrapper that never settles *)

(** X14: nothing happens on a wrapper whose handle never settles: every
    combinator returns a wrapper that never settles either, no callback is
    called and the world is untouched; and the promises of [getOrElse],
    [getErrorOrElse], [isRight] and [isLeft] stay pending, the default
    producer not being run. *)
Theorem pending_stays_pending (f g : Value -> Js Value)
    (rf lf : option (Value -> Js Value)) (dflt : Default) (w : World) :
  (AsyncEither_map never_settles f w = (Normal never_settles, w) /\
   AsyncEither_flatMap never_settles f w = (Normal never_settles, w) /\
   AsyncEither_mapError never_settles f w = (Normal never_settles, w) /\
   AsyncEither_recover never_settles f w = (Normal never_settles, w) /\
   AsyncEither_filter never_settles f g w = (Normal never_settles, w) /\
   AsyncEither_tap never_settles f w = (Normal never_settles, w) /\
   AsyncEither_tapError never_settles f w = (Normal never_settles, w) /\
   AsyncEither_tapBoth never_settles rf lf w = (Normal never_settles, w)) /\
  (AsyncEither_getOrElse never_settles dflt w = (Normal Pending, w) /\
   AsyncEither_getErrorOrElse never_settles dflt w = (Normal Pending, w) /\
   AsyncEither_isRight never_settles w = (Normal Pending, w) /\
   AsyncEither_isLeft never_settles w = (Normal Pending, w) /\
   AsyncEither_toResult never_settles w = (Suspended, w)) /\
  (AsyncEither_then never_settles (Some f) (Some g) w = (Normal Pending, w) /\
   AsyncEither_catch never_settles (Some g) w = (Normal Pending, w)).
Proof. repeat split. Qed.

(** ** then and catch *)

(** X15: the rejection handlers are dead on a built wrapper.  When the
    handle holds an Either or never settles, [catch(h)] gives back the
    settlement of the handle without calling [h], and the second argument
    of [then] makes no difference. *)
Theorem rejection_handlers_never_run (this : AsyncEither)
    (f : option (Value -> Js Value)) (h : Value -> Js Value) (w : World)
    (Hi : holds_either (promise this)) :
  AsyncEither_catch this (Some h) w = (Normal (promise this), w) /\
  AsyncEither_then this None (Some h) w = (Normal (promise this), w) /\
  AsyncEither_then this f (Some h) w = AsyncEither_then this f None w.
Proof.
  unfold AsyncEither_catch, AsyncEither_then, Promise_catch, Promise_then.
  destruct (promise this) as [v | r |]; simpl in Hi; [| contradiction |];
    repeat split.
Qed.

Lemma rejection_handlers_never_run_witness :
  AsyncEither_catch (settled (Left 0 (VStr "e"))) (Some thrower) (world_of [Left 0 (VStr "e")])
    = (Normal (Fulfilled (VEither (Left 0 (VStr "e")))), world_of [Left 0 (VStr "e")]).
Proof.
  exact (proj1 (rejection_handlers_never_run (settled (Left 0 (VStr "e"))) None thrower
                  (world_of [Left 0 (VStr "e")]) eq_refl)).
Defined.

(** ** isRight, isLeft and toResult *)

(** X16: on a settled wrapper the asynchronous [isRight], [isLeft] and
    [toResult] give what the synchronous ones give on the Either it
    settled to, without any effect; so exactly one of [isRight] and
    [isLeft] resolves to [true]. *)
Theorem async_predicates_agree (x : Either) (w : World) :
  AsyncEither_isRight (settled x) w = (Normal (Fulfilled (VBool (Either_isRight x))), w) /\
  AsyncEither_isLeft (settled x) w = (Normal (Fulfilled (VBool (Either_isLeft x))), w) /\
  AsyncEither_toResult (settled x) w = (Returned (Either_toResult x), w) /\
  (exists b, AsyncEither_isRight (settled x) w = (Normal (Fulfilled (VBool b)), w) /\
             AsyncEither_isLeft (settled x) w = (Normal (Fulfilled (VBool (negb b))), w)).
Proof.
  repeat split. exists (Either_isRight x). destruct x; split; reflexivity.
Qed.

(** ** asyncRight and asyncLeft *)

(** X17: [asyncRight(v)] settles to a new [Right] holding [v] itself and
    [asyncLeft(e)] to a new [Left] holding [e] itself, for every value:
    a payload that is an Either or a promise is neither flattened nor
    awaited, unlike a value the constructor gets from a promise. *)
Theorem async_factories (x : Value) (y : Either) (w : World) :
  asyncRight x w = (Normal (settled (Right (next_oid w) x)), alloc (Right (next_oid w) x) w) /\
  asyncLeft x w = (Normal (settled (Left (next_oid w) x)), alloc (Left (next_oid w) x) w) /\
  asyncRight (VEither y) w =
    (Normal (settled (Right (next_oid w) (VEither y))),
     alloc (Right (next_oid w) (VEither y)) w) /\
  new_AsyncEither (VPromise (Fulfilled (VEither y))) w = (Normal (settled y), w) /\
  asyncRight (VPromise (Rejected x)) w =
    (Normal (settled (Right (next_oid w) (VPromise (Rejected x)))),
     alloc (Right (next_oid w) (VPromise (Rejected x))) w) /\
  new_AsyncEither (VPromise (Rejected x)) w = captured x w.
Proof. repeat split. Qed.

(** ** From a value to a value *)

Example map_then_getOrElse :
  (a <- asyncRight (VNum 5) ;;
   b <- AsyncEither_map a thrower ;;
   AsyncEither_getOrElse b (Plain (VNum 0))) w0
  = (Normal (Fulfilled (VNum 0)), world_of [Right 0 (VNum 5); Left 1 (VNum 5)]).
Proof. reflexivity. Qed.

(** X18: a failure of the mapper surfaces as the default.  For
    [asyncRight(v).map(f).getOrElse(d)] with a plain default: when [f]
    returns, the promise resolves with what [f]'s result resolves to;
    when [f] throws or its promise rejects, the promise resolves with
    [d]; it is never rejected, and stays pending only when [f]'s promise
    does. *)
Theorem map_getOrElse_end_to_end (v d : Value) (f : Value -> Js Value) (w : World)
    (Hd : thenable d = false) :
  fst ((a <- asyncRight v ;;
        b <- AsyncEither_map a f ;;
        AsyncEither_getOrElse b (Plain d)) w) =
    match f v (alloc (Right (next_oid w) v) w) with
    | (Normal result, _) =>
        match resolve result with
        | Fulfilled mapped => Normal (Fulfilled mapped)
        | Rejected _ => Normal (Fulfilled d)
        | Pending => Normal Pending
        end
    | (Throw _, _) => Normal (Fulfilled d)
    end.
Proof.
  unfold bind at 1. rewrite (proj1 (async_factories v (Left 0 v) w)).
  unfold bind. rewrite async_map_right.
  destruct (f v (alloc (Right (next_oid w) v) w)) as [[result | ex] w1].
  - destruct (resolve result) as [m | r |] eqn:E.
    + rewrite async_getOrElse_spec. simpl.
      now rewrite (resolve_fulfilled_stable _ _ E).
    + rewrite async_getOrElse_spec. simpl. now rewrite (resolve_plain _ Hd).
    + reflexivity.
  - rewrite async_getOrElse_spec. simpl. now rewrite (resolve_plain _ Hd).
Qed.

Lemma map_getOrElse_end_to_end_witness :
  fst ((a <- asyncRight (VNum 5) ;;
        b <- AsyncEither_map a rejecter ;;
        AsyncEither_getOrElse b (Plain (VNum 0))) w0) = Normal (Fulfilled (VNum 0)).
Proof.
  exact (map_getOrElse_end_to_end (VNum 5) (VNum 0) rejecter w0 eq_refl).
Defined.

(** ** The asynchronous tap family waits for its callback *)

(** X19: the asynchronous [tap] awaits what its callback returns before
    it settles: the wrapper settles, unchanged, once the callback's promise
    is fulfilled, and never settles when that promise never does.
    [tapBoth] gives what [tap] gives with the first callback on a [Right]
    and what [tapError] gives with the second on a [Left]; without the
    callback of the handle's variant nothing is called, nor on [tap] of a
    [Left] and [tapError] of a [Right]. *)
Theorem async_tap_awaits (i : nat) (v e : Value) (f : Value -> Js Value)
    (rf lf : option (Value -> Js Value)) (w : World) :
  (forall r w1, f v w = (Normal r, w1) ->
     AsyncEither_tap (settled (Right i v)) f w =
       match resolve r with
       | Fulfilled _ => (Normal (settled (Right i v)), w1)
       | Rejected reason =>
           (Normal (settled (Right i v)),
            print (mkCall console_error_m [VStr "An error occurred at tap"; reason]) w1)
       | Pending => (Normal never_settles, w1)
       end) /\
  (AsyncEither_tapBoth (settled (Right i v)) (Some f) lf w =
     AsyncEither_tap (settled (Right i v)) f w /\
   AsyncEither_tapBoth (settled (Left i e)) rf (Some f) w =
     AsyncEither_tapError (settled (Left i e)) f w) /\
  (AsyncEither_tapBoth (settled (Right i v)) None lf w = (Normal (settled (Right i v)), w) /\
   AsyncEither_tapBoth (settled (Left i e)) rf None w = (Normal (settled (Left i e)), w) /\
   AsyncEither_tap (settled (Left i e)) f w = (Normal (settled (Left i e)), w) /\
   AsyncEither_tapError (settled (Right i v)) f w = (Normal (settled (Right i v)), w)).
Proof.
  split; [| split; [split | repeat split]].
  - intros r w1 H. rewrite async_tap_right, H. unfold call_and_await, await, tapped.
    destruct (resolve r); reflexivity.
  - now rewrite async_tapBoth_right, async_tap_right.
  - now rewrite async_tapBoth_left, async_tapError_left.
Qed.

Lemma async_tap_awaits_witness :
  AsyncEither_tap (settled (Right 0 (VNum 2))) (fun _ => ret (VPromise Pending))
    (world_of [Right 0 (VNum 2)])
  = (Normal never_settles, world_of [Right 0 (VNum 2)]).
Proof.
  exact (proj1 (async_tap_awaits 0 (VNum 2) VNull (fun _ => ret (VPromise Pending))
                  None None (world_of [Right 0 (VNum 2)]))
           (VPromise Pending) (world_of [Right 0 (VNum 2)]) eq_refl).
Defined.

(** ** What then returns is an ordinary promise *)

(** X20: the promise returned by [then] is not protected by the wrapper.
    The reaction receives the Either the wrapper settled to, and the
    promise is settled by running it: [then(x => x.unwrap())] on a wrapper
    settled to a [Left] is rejected with the [EitherUnwrapError] of
    [unwrap], [then(x => x.unwrapError())] on one settled to a [Right]
    with that of [unwrapError]; on the matching variant they resolve
    with the payload. *)
Theorem then_runs_reaction (x : Either) (i : nat) (v e : Value)
    (f : Value -> Js Value) (g : option (Value -> Js Value)) (w : World) :
  AsyncEither_then (settled x) (Some f) g w = settle (f (VEither x)) w /\
  AsyncEither_then (settled (Left i e)) (Some call_unwrap) g w =
    (Normal (Rejected (VError (mkError Class_EitherUnwrapError
                                 "Cannot unwrap Left instance" (Some DEFAULT_CODE)))), w) /\
  AsyncEither_then (settled (Right i v)) (Some call_unwrapError) g w =
    (Normal (Rejected (VError (mkError Class_EitherUnwrapError
                                 "Cannot unwrapError Right instance" (Some DEFAULT_CODE)))), w) /\
  AsyncEither_then (settled (Right i v)) (Some call_unwrap) g w = (Normal (resolve v), w) /\
  AsyncEither_then (settled (Left i e)) (Some call_unwrapError) g w = (Normal (resolve e), w).
Proof. repeat split. Qed.
